(** * Warbler: the SQLAlchemy models of [models.py]

    A shallow embedding of the persistent data model (users, messages,
    follow edges, like edges) and of the methods of [User], over an explicit
    model of the ORM session the methods talk to:

    - the four tables are lists of rows, in insertion order;
    - [db.session.add] appends an instance to the session's pending list;
    - a flush (issued by [commit], and automatically before every query and
      every bulk DELETE) inserts the pending instances table by table and
      checks the constraints the schema declares: primary keys, unique
      columns, foreign keys and [String(n)] lengths;
    - a raised exception aborts the unit of work: it carries no state;
    - a relationship attribute ([following_users], [liked_messages], ...) is
      loaded by a query at its first use and read as loaded afterwards; only
      a commit unloads it ([Orm], [commit_and_expire]). *)

From Stdlib Require Import ZArith List Ascii String Bool Lia.
Import ListNotations.

Local Open Scope Z_scope.

(** ** Constants *)

Definition DEFAULT_IMAGE_URL : string :=
  ("https://icon-library.com/images/default-user-icon/" ++
   "default-user-icon-28.jpg")%string.

Definition DEFAULT_HEADER_IMAGE_URL : string :=
  ("https://images.unsplash.com/photo-1519751138087-5bf79df62d5b?ixlib=" ++
   "rb-4.0.3&ixid=MnwxMjA3fDB8MHxwaG90by1wYWdlfHx8fGVufDB8fHx8&auto=for" ++
   "mat&fit=crop&w=2070&q=80")%string.

(** ** Rows and instances *)

Module Follow.

(** class Follow: the row [(user_being_followed_id, user_following_id)]. *)
Record t : Type := mk {
  user_being_followed_id : Z;
  user_following_id : Z
}.

Definition eqb (f g : t) : bool :=
  (user_being_followed_id f =? user_being_followed_id g) &&
  (user_following_id f =? user_following_id g).

End Follow.

Module Like.

(** class Like: the row [(user_id, message_id)]. *)
Record t : Type := mk {
  user_id : Z;
  message_id : Z
}.

Definition eqb (l k : t) : bool :=
  (user_id l =? user_id k) && (message_id l =? message_id k).

End Like.

Module User.

(** A persistent [User]: a row of table [users]. *)
Record t : Type := mk {
  id : Z;
  email : string;
  username : string;
  image_url : string;
  header_image_url : string;
  bio : string;
  location : string;
  password : string
}.

(** A [User] as [signup] constructs it: the identity and the column defaults
    are filled in by the INSERT. *)
Record transient : Type := init {
  t_username : string;
  t_email : string;
  t_password : string;
  t_image_url : string
}.

End User.

Module Message.

(** A persistent [Message]: a row of table [messages]. *)
Record t : Type := mk {
  id : Z;
  text : string;
  timestamp : Z;
  user_id : Z
}.

(** A [Message] as the declarative constructor builds it from its keyword
    arguments; the class declares no [__init__] and no validator. *)
Record transient : Type := init {
  t_text : string;
  t_user_id : Z
}.

End Message.

(** ** Exceptions *)

(** The uniqueness rules of the schema, by table and columns. [follows_pair]
    is the pair (user_being_followed_id, user_following_id): the primary key
    of [follows], which the [UniqueConstraint] of [__table_args__] names
    again; [likes_pair] is the primary key (user_id, message_id). *)
Inductive UniqueKey : Type :=
| users_id
| users_email
| users_username
| messages_id
| follows_pair
| likes_pair.

Inductive ForeignKey : Type :=
| follows_user_being_followed_id_fkey
| follows_user_following_id_fkey
| likes_user_id_fkey
| likes_message_id_fkey
| messages_user_id_fkey.

Inductive Violation : Type :=
| UniqueViolation (k : UniqueKey)
| ForeignKeyViolation (k : ForeignKey).

Inductive Exception : Type :=
| IntegrityError (v : Violation)
| DataError
| MultipleResultsFound
| ValueError
| AttributeError
| AssertionError.

Inductive Result (A : Type) : Type :=
| Ok (a : A)
| Raise (e : Exception).

Arguments Ok {A} a.
Arguments Raise {A} e.

Definition rbind {A B : Type} (r : Result A) (k : A -> Result B) : Result B :=
  match r with
  | Ok a => k a
  | Raise e => Raise e
  end.

(** ** The database and the session *)

Record Database : Type := mkDatabase {
  users : list User.t;
  messages : list Message.t;
  follows : list Follow.t;
  likes : list Like.t;
  users_id_seq : Z;
  messages_id_seq : Z;
  current_timestamp : Z
}.

(** What [db.session.add] accepts. *)
Inductive Instance : Type :=
| AUser (u : User.transient)
| AMessage (m : Message.transient)
| AFollow (f : Follow.t)
| ALike (l : Like.t).

Record Session : Type := mkSession {
  db : Database;
  new : list Instance
}.

Definition set_users (d : Database) (us : list User.t) (seq : Z) : Database :=
  mkDatabase us (messages d) (follows d) (likes d) seq (messages_id_seq d)
             (current_timestamp d).

Definition set_messages (d : Database) (ms : list Message.t) (seq : Z)
  : Database :=
  mkDatabase (users d) ms (follows d) (likes d) (users_id_seq d) seq
             (current_timestamp d).

Definition set_follows (d : Database) (fs : list Follow.t) : Database :=
  mkDatabase (users d) (messages d) fs (likes d) (users_id_seq d)
             (messages_id_seq d) (current_timestamp d).

Definition set_likes (d : Database) (ls : list Like.t) : Database :=
  mkDatabase (users d) (messages d) (follows d) ls (users_id_seq d)
             (messages_id_seq d) (current_timestamp d).

(** The state-and-exception monad of a unit of work. *)
Definition M (A : Type) : Type := Session -> Result (A * Session).

Definition ret {A : Type} (a : A) : M A := fun s => Ok (a, s).

Definition bind {A B : Type} (m : M A) (k : A -> M B) : M B :=
  fun s => match m s with
           | Ok (a, s') => k a s'
           | Raise e => Raise e
           end.

Definition lift {A : Type} (r : Result A) : M A :=
  fun s => match r with
           | Ok a => Ok (a, s)
           | Raise e => Raise e
           end.

Definition get_db : M Database := fun s => Ok (db s, s).

Definition put_db (d : Database) : M unit :=
  fun s => Ok (tt, mkSession d (new s)).

Declare Scope orm_scope.
Delimit Scope orm_scope with orm.

Notation "x <- m ;; k" := (bind m (fun x => k))
  (at level 61, m at next level, right associativity) : orm_scope.
Notation "m ;; k" := (bind m (fun _ => k))
  (at level 61, right associativity) : orm_scope.

Local Open Scope orm_scope.

(** ** Constraint checks of the schema *)

Fixpoint all_spaces (s : string) : bool :=
  match s with
  | EmptyString => true
  | String c s' => Ascii.eqb c " "%char && all_spaces s'
  end.

(** [db.String(n)], SQL's [character varying(n)]: a value of at most [n]
    characters is stored as it is; a longer one is refused, unless all its
    characters past the [n]-th are spaces, which are cut off. *)
Definition varchar (n : nat) (s : string) : Result string :=
  if (String.length s <=? n)%nat then Ok s
  else if all_spaces (substring n (String.length s - n) s)
  then Ok (substring 0 n s)
  else Raise DataError.

Definition user_exists (d : Database) (uid : Z) : bool :=
  existsb (fun u => User.id u =? uid) (users d).

Definition message_exists (d : Database) (mid : Z) : bool :=
  existsb (fun m => Message.id m =? mid) (messages d).

(** INSERT INTO users: [id] from the identity sequence, [header_image_url],
    [bio] and [location] from the column defaults. *)
Definition insert_user (u : User.transient) (d : Database) : Result Database :=
  rbind (varchar 50 (User.t_email u)) (fun email =>
  rbind (varchar 30 (User.t_username u)) (fun username =>
  rbind (varchar 255 (User.t_image_url u)) (fun image_url =>
  rbind (varchar 100 (User.t_password u)) (fun password =>
  let uid := users_id_seq d in
  if user_exists d uid
  then Raise (IntegrityError (UniqueViolation users_id))
  else if existsb (fun v => String.eqb (User.email v) email) (users d)
  then Raise (IntegrityError (UniqueViolation users_email))
  else if existsb (fun v => String.eqb (User.username v) username) (users d)
  then Raise (IntegrityError (UniqueViolation users_username))
  else Ok (set_users d
             (users d ++
              [User.mk uid email username image_url DEFAULT_HEADER_IMAGE_URL
                       EmptyString EmptyString password])
             (uid + 1)))))).

(** INSERT INTO messages: [id] from the identity sequence, [timestamp] from
    the server default. *)
Definition insert_message (m : Message.transient) (d : Database)
  : Result Database :=
  rbind (varchar 140 (Message.t_text m)) (fun text =>
  let mid := messages_id_seq d in
  if message_exists d mid
  then Raise (IntegrityError (UniqueViolation messages_id))
  else if negb (user_exists d (Message.t_user_id m))
  then Raise (IntegrityError (ForeignKeyViolation messages_user_id_fkey))
  else Ok (set_messages d
             (messages d ++
              [Message.mk mid text (current_timestamp d)
                          (Message.t_user_id m)])
             (mid + 1))).

(** INSERT INTO follows: the pair is the primary key and is also named by
    the [UniqueConstraint] of [__table_args__]; both columns reference
    [users.id]. Nothing compares the two columns with each other. *)
Definition insert_follow (f : Follow.t) (d : Database) : Result Database :=
  if existsb (Follow.eqb f) (follows d)
  then Raise (IntegrityError (UniqueViolation follows_pair))
  else if negb (user_exists d (Follow.user_being_followed_id f))
  then Raise (IntegrityError
                (ForeignKeyViolation follows_user_being_followed_id_fkey))
  else if negb (user_exists d (Follow.user_following_id f))
  then Raise (IntegrityError
                (ForeignKeyViolation follows_user_following_id_fkey))
  else Ok (set_follows d (follows d ++ [f])).

(** INSERT INTO likes: the pair is the primary key. *)
Definition insert_like (l : Like.t) (d : Database) : Result Database :=
  if existsb (Like.eqb l) (likes d)
  then Raise (IntegrityError (UniqueViolation likes_pair))
  else if negb (user_exists d (Like.user_id l))
  then Raise (IntegrityError (ForeignKeyViolation likes_user_id_fkey))
  else if negb (message_exists d (Like.message_id l))
  then Raise (IntegrityError (ForeignKeyViolation likes_message_id_fkey))
  else Ok (set_likes d (likes d ++ [l])).

(** ** The session: add, flush, commit *)

Definition new_users (l : list Instance) : list User.transient :=
  flat_map (fun i => match i with AUser u => [u] | _ => [] end) l.

Definition new_messages (l : list Instance) : list Message.transient :=
  flat_map (fun i => match i with AMessage m => [m] | _ => [] end) l.

Definition new_follows (l : list Instance) : list Follow.t :=
  flat_map (fun i => match i with AFollow f => [f] | _ => [] end) l.

Definition new_likes (l : list Instance) : list Like.t :=
  flat_map (fun i => match i with ALike k => [k] | _ => [] end) l.

Fixpoint insert_all {A : Type} (ins : A -> Database -> Result Database)
  (l : list A) (d : Database) : Result Database :=
  match l with
  | [] => Ok d
  | x :: l' => rbind (ins x d) (insert_all ins l')
  end.

(** db.session.add(instance): stages the instance, checks nothing. *)
Definition session_add (i : Instance) : M unit :=
  fun s => Ok (tt, mkSession (db s) (new s ++ [i])).

(** The unit of work inserts parents before children: users, then messages,
    then the two edge tables; within a table, in the order of [add]. *)
Definition flush_db (pending : list Instance) (d : Database)
  : Result Database :=
  rbind (insert_all insert_user (new_users pending) d) (fun d1 =>
  rbind (insert_all insert_message (new_messages pending) d1) (fun d2 =>
  rbind (insert_all insert_follow (new_follows pending) d2) (fun d3 =>
  insert_all insert_like (new_likes pending) d3))).

Definition flush : M unit :=
  fun s => match flush_db (new s) (db s) with
           | Ok d => Ok (tt, mkSession d [])
           | Raise e => Raise e
           end.

(** db.session.commit(), as far as the tables and the pending list go; that
    it also expires what the session has loaded is [commit_and_expire]. *)
Definition commit : M unit := flush.

(** The flush a session with [autoflush=True] issues before a statement. *)
Definition autoflush : M unit := flush.

(** ** The password hasher *)

(** The two methods of the [Bcrypt()] object the module uses. A digest is
    salted, so [generate_password_hash] takes the salt it draws as an
    argument, and returns the digest as [signup] decodes it; both methods
    may raise ([ValueError]: an empty password, a malformed digest). *)
Class Bcrypt : Type := {
  generate_password_hash : string -> string -> Result string;
  check_password_hash : string -> string -> Result bool
}.

(** What the models rely on from the hasher: a digest verifies against
    the password it was generated from, it has the 60 characters of a bcrypt
    digest (so it fits the [String(100)] column), and it is not the password
    itself. *)
Record BcryptSpec (B : Bcrypt) : Prop := {
  check_generate : forall salt pw h,
    generate_password_hash salt pw = Ok h -> check_password_hash h pw = Ok true;
  digest_length : forall salt pw h,
    generate_password_hash salt pw = Ok h -> String.length h = 60%nat;
  digest_not_plaintext : forall salt pw h,
    generate_password_hash salt pw = Ok h -> h <> pw
}.

(** ** Lookups behind the relationship attributes *)

(** The many-to-one side of a relationship: the row with that primary key. *)
Definition get_user (d : Database) (uid : Z) : option User.t :=
  find (fun u => User.id u =? uid) (users d).

Definition get_message (d : Database) (mid : Z) : option Message.t :=
  find (fun m => Message.id m =? mid) (messages d).

(** User.following_users: the Follow rows whose [user_following_id] is the
    user's id, as the lazy load selects them (it then keeps one object per
    primary key, [unique_rows]). *)
Definition following_users (self : User.t) (d : Database) : list Follow.t :=
  filter (fun f => Follow.user_following_id f =? User.id self) (follows d).

(** User.followers_users: the Follow rows whose [user_being_followed_id] is
    the user's id. *)
Definition followers_users (self : User.t) (d : Database) : list Follow.t :=
  filter (fun f => Follow.user_being_followed_id f =? User.id self)
         (follows d).

(** User.liked_messages: the Like rows whose [user_id] is the user's id. *)
Definition liked_messages (self : User.t) (d : Database) : list Like.t :=
  filter (fun l => Like.user_id l =? User.id self) (likes d).

(** Follow.following_user, joined on [user_being_followed_id]. *)
Definition following_user (f : Follow.t) (d : Database) : option User.t :=
  get_user d (Follow.user_being_followed_id f).

(** Follow.followed_user, joined on [user_following_id]. *)
Definition followed_user (f : Follow.t) (d : Database) : option User.t :=
  get_user d (Follow.user_following_id f).

(** Like.message_the_user_liked *)
Definition message_the_user_liked (l : Like.t) (d : Database)
  : option Message.t :=
  get_message d (Like.message_id l).

(** Result.scalar_one_or_none() *)
Definition scalar_one_or_none {A : Type} (rows : list A) : Result (option A) :=
  match rows with
  | [] => Ok None
  | [x] => Ok (Some x)
  | _ :: _ :: _ => Raise MultipleResultsFound
  end.

(** Result.first() *)
Definition first {A : Type} (rows : list A) : option A := hd_error rows.

(** bool(row) of an optional row *)
Definition truthy {A : Type} (row : option A) : bool :=
  match row with
  | Some _ => true
  | None => false
  end.

(** A bulk DELETE: the rows left and the rowcount of the statement. *)
Definition delete_where {A : Type} (p : A -> bool) (rows : list A)
  : list A * nat :=
  (filter (fun r => negb (p r)) rows, List.length (filter p rows)).

(** dbx(db.delete(Follow).filter_by(user_being_followed_id=.., user_following_id=..)) *)
Definition delete_follow (followed following : Z) : M nat :=
  autoflush ;;
  d <- get_db ;;
  let (rest, rowcount) :=
    delete_where (Follow.eqb (Follow.mk followed following)) (follows d) in
  put_db (set_follows d rest) ;;
  ret rowcount.

(** dbx(db.delete(Like).filter_by(message_id=.., user_id=..)) *)
Definition delete_like (message_id user_id : Z) : M nat :=
  autoflush ;;
  d <- get_db ;;
  let (rest, rowcount) :=
    delete_where (Like.eqb (Like.mk user_id message_id)) (likes d) in
  put_db (set_likes d rest) ;;
  ret rowcount.

(** ** class User *)

(** What [authenticate] returns: the user, or [False]. *)
Inductive UserOrFalse : Type :=
| TheUser (u : User.t)
| False_.

(** [liked_msg for liked_msg in likes if liked_msg.id == message_id]; reading
    [.id] of a missing message raises. *)
Fixpoint found_likes (likes : list (option Message.t)) (message_id : Z)
  : Result (list Message.t) :=
  match likes with
  | [] => Ok []
  | None :: _ => Raise AttributeError
  | Some m :: rest =>
      rbind (found_likes rest message_id) (fun found =>
        Ok (if Message.id m =? message_id then m :: found else found))
  end.

Section UserMethods.

Context {bcrypt : Bcrypt}.

(** User.signup; [image_url = None] is the call that leaves the keyword
    argument at its default. *)
Definition signup (salt username email password : string)
  (image_url : option string) : M User.transient :=
  hashed_pwd <- lift (generate_password_hash salt password) ;;
  let user :=
    User.init username email hashed_pwd
      (match image_url with Some url => url | None => DEFAULT_IMAGE_URL end) in
  session_add (AUser user) ;;
  ret user.

(** User.authenticate *)
Definition authenticate (username password : string) : M UserOrFalse :=
  autoflush ;;
  d <- get_db ;;
  user <- lift (scalar_one_or_none
                  (filter (fun u => String.eqb (User.username u) username)
                          (users d))) ;;
  match user with
  | Some user =>
      is_auth <- lift (check_password_hash (User.password user) password) ;;
      if is_auth then ret (TheUser user) else ret False_
  | None => ret False_
  end.

(** User.is_username_taken *)
Definition is_username_taken (username : string) : M bool :=
  autoflush ;;
  d <- get_db ;;
  ret (truthy (first (map User.id
         (filter (fun u => String.eqb (User.username u) username) (users d))))).

(** User.is_email_taken *)
Definition is_email_taken (email : string) : M bool :=
  autoflush ;;
  d <- get_db ;;
  ret (truthy (first (map User.id
         (filter (fun u => String.eqb (User.email u) email) (users d))))).

(** User.follow *)
Definition follow (self other_user : User.t) : M unit :=
  let follow := Follow.mk (User.id other_user) (User.id self) in
  session_add (AFollow follow).

(** User.unfollow *)
Definition unfollow (self other_user : User.t) : M unit :=
  delete_follow (User.id other_user) (User.id self) ;;
  ret tt.

(** User.like *)
Definition like (self : User.t) (message_id : Z) : M unit :=
  let like := Like.mk (User.id self) message_id in
  session_add (ALike like).

(** User.unlike *)
Definition unlike (self : User.t) (message_id : Z) : M unit :=
  delete_like message_id (User.id self) ;;
  ret tt.

End UserMethods.

(** ** class Message *)

(** Creating a Message: the declarative constructor, then [db.session.add],
    as [follow] and [like] do for their rows. The class has no method and no
    validator of its own; its only statement about the length of [text] is
    the column type [String(140)], which the INSERT applies. *)
Definition create_message (text : string) (user_id : Z)
  : M Message.transient :=
  let message := Message.init text user_id in
  session_add (AMessage message) ;;
  ret message.

(** ** The objects a session has loaded *)

(** A [User] object handed to a method as [other_user]: the object the
    session's identity map holds for that primary key, or any other object
    (transient, detached, of another session). [self] is always an object of
    the session. *)
Inductive UserObject : Type :=
| OfSession (u : User.t)
| Another (u : User.t).

(** [user == other_user]: [User] defines no [__eq__], so this is object
    identity. The users a relationship yields are objects of the session,
    one per primary key; [None] and objects from elsewhere equal none. *)
Definition user_eq (user : option User.t) (other_user : UserObject) : bool :=
  match user, other_user with
  | Some u, OfSession o => User.id u =? User.id o
  | _, _ => false
  end.

(** A loaded collection holds one object per primary key, whatever the
    rows. *)
Fixpoint unique_rows {A : Type} (eqb : A -> A -> bool) (rows : list A)
  : list A :=
  match rows with
  | [] => []
  | r :: rest => r :: filter (fun x => negb (eqb r x)) (unique_rows eqb rest)
  end.

Fixpoint loaded_for {A : Type} (id : Z) (loaded : list (Z * A)) : option A :=
  match loaded with
  | [] => None
  | (k, a) :: rest => if k =? id then Some a else loaded_for id rest
  end.

(** The session together with what its objects have loaded: per user, the
    list [User.following] walks (the collection [following_users] with the
    [following_user] of each member), the list [User.followers] walks, and
    the list [User.likes] walks. A loaded attribute is read without a
    statement; nothing but [commit_and_expire] unloads it. *)
Record Orm : Type := mkOrm {
  session : Session;
  following_loaded : list (Z * list (option User.t));
  followers_loaded : list (Z * list (option User.t));
  likes_loaded : list (Z * list (option Message.t))
}.

Definition OM (A : Type) : Type := Orm -> Result (A * Orm).

Definition oret {A : Type} (a : A) : OM A := fun o => Ok (a, o).

Definition obind {A B : Type} (m : OM A) (k : A -> OM B) : OM B :=
  fun o => match m o with
           | Ok (a, o') => k a o'
           | Raise e => Raise e
           end.

Declare Scope loaded_scope.
Delimit Scope loaded_scope with O.

Notation "x <- m ;; k" := (obind m (fun x => k))
  (at level 61, m at next level, right associativity) : loaded_scope.
Notation "m ;; k" := (obind m (fun _ => k))
  (at level 61, right associativity) : loaded_scope.

(** A method that only talks to the session ([follow], [unfollow], [like],
    [unlike], ...): what is loaded stays as it is. *)
Definition in_session {A : Type} (m : M A) : OM A :=
  fun o => match m (session o) with
           | Ok (a, s') =>
               Ok (a, mkOrm s' (following_loaded o) (followers_loaded o)
                            (likes_loaded o))
           | Raise e => Raise e
           end.

(** db.session.commit() with [expire_on_commit], the default. *)
Definition commit_and_expire : OM unit :=
  fun o => match commit (session o) with
           | Ok (_, s') => Ok (tt, mkOrm s' [] [] [])
           | Raise e => Raise e
           end.

(** User.following: the loaded list, or the lazy load after its autoflush. *)
Definition following (self : User.t) : OM (list (option User.t)) :=
  fun o =>
    match loaded_for (User.id self) (following_loaded o) with
    | Some l => Ok (l, o)
    | None =>
        match autoflush (session o) with
        | Ok (_, s') =>
            let l := map (fun follow => following_user follow (db s'))
                         (unique_rows Follow.eqb
                            (following_users self (db s'))) in
            Ok (l, mkOrm s' ((User.id self, l) :: following_loaded o)
                         (followers_loaded o) (likes_loaded o))
        | Raise e => Raise e
        end
    end.

(** User.followers *)
Definition followers (self : User.t) : OM (list (option User.t)) :=
  fun o =>
    match loaded_for (User.id self) (followers_loaded o) with
    | Some l => Ok (l, o)
    | None =>
        match autoflush (session o) with
        | Ok (_, s') =>
            let l := map (fun follow => followed_user follow (db s'))
                         (unique_rows Follow.eqb
                            (followers_users self (db s'))) in
            Ok (l, mkOrm s' (following_loaded o)
                         ((User.id self, l) :: followers_loaded o)
                         (likes_loaded o))
        | Raise e => Raise e
        end
    end.

(** User.likes *)
Definition likes_of (self : User.t) : OM (list (option Message.t)) :=
  fun o =>
    match loaded_for (User.id self) (likes_loaded o) with
    | Some l => Ok (l, o)
    | None =>
        match autoflush (session o) with
        | Ok (_, s') =>
            let l := map (fun like => message_the_user_liked like (db s'))
                         (unique_rows Like.eqb (liked_messages self (db s'))) in
            Ok (l, mkOrm s' (following_loaded o) (followers_loaded o)
                         ((User.id self, l) :: likes_loaded o))
        | Raise e => Raise e
        end
    end.

(** User.is_followed_by *)
Definition is_followed_by (self : User.t) (other_user : UserObject) : OM bool :=
  (followers <- followers self ;;
   let found_user_list :=
     filter (fun user => user_eq user other_user) followers in
   oret (List.length found_user_list =? 1)%nat)%O.

(** User.is_following *)
Definition is_following (self : User.t) (other_user : UserObject) : OM bool :=
  (following <- following self ;;
   let found_user_list :=
     filter (fun user => user_eq user other_user) following in
   oret (List.length found_user_list =? 1)%nat)%O.

(** User.is_liked *)
Definition is_liked (self : User.t) (message_id : Z) : OM bool :=
  (likes <- likes_of self ;;
   fun o => match found_likes likes message_id with
            | Ok found_likes => Ok ((List.length found_likes =? 1)%nat, o)
            | Raise e => Raise e
            end)%O.

(** db.session.delete(user) and its flush, for a user whose collections the
    session has not loaded, as the relationships of [User] and [Message]
    configure it. [messages], [following_users] and [followers_users]
    cascade the delete; [liked_messages] and [Message.users_who_liked]
    declare no cascade, so their rows are to be detached by blanking
    [likes.user_id], resp. [likes.message_id], which are primary key
    columns: the unit of work refuses with an assertion. *)
Definition session_delete (user : User.t) : M unit :=
  autoflush ;;
  d <- get_db ;;
  let owned :=
    map Message.id
        (filter (fun m => Message.user_id m =? User.id user) (messages d)) in
  if existsb (fun l => (Like.user_id l =? User.id user) ||
                       existsb (Z.eqb (Like.message_id l)) owned) (likes d)
  then fun _ => Raise AssertionError
  else
    put_db
      (mkDatabase
         (filter (fun u => negb (User.id u =? User.id user)) (users d))
         (filter (fun m => negb (Message.user_id m =? User.id user))
                 (messages d))
         (filter (fun f =>
                    negb ((Follow.user_being_followed_id f =? User.id user) ||
                          (Follow.user_following_id f =? User.id user)))
                 (follows d))
         (likes d)
         (users_id_seq d) (messages_id_seq d) (current_timestamp d)).

(** The range of an [Integer] column. *)
Definition int4 (z : Z) : Prop := - 2 ^ 31 <= z < 2 ^ 31.

(** ** Deleting a user *)

(** DELETE FROM users WHERE id = user_id, as the storage executes the
    statement: the foreign keys of [follows], [likes] and [messages] are
    declared with [ondelete="cascade"], and so is [likes.message_id], which
    takes the likes on the deleted messages along. This is the statement,
    not [db.session.delete], which is [session_delete]. *)
Definition delete_user (user_id : Z) : M unit :=
  autoflush ;;
  d <- get_db ;;
  let owned :=
    map Message.id
        (filter (fun m => Message.user_id m =? user_id) (messages d)) in
  put_db
    (mkDatabase
       (filter (fun u => negb (User.id u =? user_id)) (users d))
       (filter (fun m => negb (Message.user_id m =? user_id)) (messages d))
       (filter (fun f => negb ((Follow.user_being_followed_id f =? user_id) ||
                               (Follow.user_following_id f =? user_id)))
               (follows d))
       (filter (fun l => negb ((Like.user_id l =? user_id) ||
                               existsb (Z.eqb (Like.message_id l)) owned))
               (likes d))
       (users_id_seq d) (messages_id_seq d) (current_timestamp d)).

(** [liked_msg.id == message_id] on an entry of [User.likes] that is there. *)
Definition liked_msg_has_id (liked_msg : option Message.t) (message_id : Z)
  : bool :=
  match liked_msg with
  | Some m => Message.id m =? message_id
  | None => false
  end.

(** ** The other relationship attributes *)

(** User.messages: the Message rows whose [user_id] is the user's id. *)
Definition User_messages (self : User.t) (d : Database) : list Message.t :=
  filter (fun m => Message.user_id m =? User.id self) (messages d).

(** Message.user, joined on [user_id]. *)
Definition Message_user (m : Message.t) (d : Database) : option User.t :=
  get_user d (Message.user_id m).

(** Message.users_who_liked: the Like rows whose [message_id] is the
    message's id. *)
Definition users_who_liked (m : Message.t) (d : Database) : list Like.t :=
  filter (fun l => Like.message_id l =? Message.id m) (likes d).

(** Like.user_liking_the_message, joined on [user_id]. *)
Definition user_liking_the_message (l : Like.t) (d : Database)
  : option User.t :=
  get_user d (Like.user_id l).

(** Every row of [d] is a row of [d']. *)
Definition extends (d d' : Database) : Prop :=
  incl (users d) (users d') /\ incl (messages d) (messages d') /\
  incl (follows d) (follows d') /\ incl (likes d) (likes d').

(** ** A concrete hasher and concrete states, for closed examples *)

Fixpoint repeat_char (n : nat) (c : Ascii.ascii) : string :=
  match n with
  | O => EmptyString
  | S n' => String c (repeat_char n' c)
  end.

Definition toy_digest_a : string := repeat_char 60 "a"%char.
Definition toy_digest_b : string := repeat_char 60 "b"%char.

(** Not bcrypt: the smallest hasher with the shape of one. Every password
    but [toy_digest_a] hashes to [toy_digest_a]; a digest of another length
    is malformed. *)
Definition toy_digest (pw : string) : string :=
  if String.eqb pw toy_digest_a then toy_digest_b else toy_digest_a.

Definition toy_bcrypt : Bcrypt := {|
  generate_password_hash := fun _ pw =>
    if String.eqb pw EmptyString then Raise ValueError else Ok (toy_digest pw);
  check_password_hash := fun h pw =>
    if (String.length h =? 60)%nat then Ok (String.eqb h (toy_digest pw))
    else Raise ValueError
|}.

Definition ana : User.t :=
  User.mk 1 "ana@x.com" "ana" DEFAULT_IMAGE_URL DEFAULT_HEADER_IMAGE_URL
          EmptyString EmptyString toy_digest_a.

Definition bo : User.t :=
  User.mk 2 "bo@x.com" "bo" DEFAULT_IMAGE_URL DEFAULT_HEADER_IMAGE_URL
          EmptyString EmptyString toy_digest_a.

Definition cy : User.t :=
  User.mk 3 "cy@x.com" "cy" DEFAULT_IMAGE_URL DEFAULT_HEADER_IMAGE_URL
          EmptyString EmptyString toy_digest_a.

Definition hello_world : Message.t := Message.mk 1 "hello world" 0 1.

(** ana and bo have signed up and ana has posted; nobody follows or likes. *)
Definition db0 : Database :=
  mkDatabase [ana; bo] [hello_world] [] [] 3 2 0.

Definition session0 : Session := mkSession db0 [].

(** bo follows ana and likes her message; cy follows bo and likes the
    message too. *)
Definition db1 : Database :=
  mkDatabase [ana; bo; cy] [hello_world]
             [Follow.mk 1 2; Follow.mk 2 3] [Like.mk 2 1; Like.mk 3 1] 4 2 0.

Definition session1 : Session := mkSession db1 [].

(** A table state the constraints exclude: the edge (ana, bo) twice. *)
Definition db_duplicate : Database :=
  mkDatabase [ana; bo] [hello_world]
             [Follow.mk 1 2; Follow.mk 1 2] [Like.mk 2 1; Like.mk 2 1] 3 2 0.

Definition session_duplicate : Session := mkSession db_duplicate [].

(** The sessions above with nothing loaded yet. *)
Definition orm0 : Orm := mkOrm session0 [] [] [].

Definition orm1 : Orm := mkOrm session1 [] [] [].

(** A loaded list no load produces: ana twice among those bo follows. *)
Definition orm_twice : Orm := mkOrm session0 [(2, [Some ana; Some ana])] [] [].

Definition orm_duplicate : Orm := mkOrm session_duplicate [] [] [].

Definition text140 : string := repeat_char 140 "w"%char.
Definition text141 : string := repeat_char 141 "w"%char.

(** ** Consistency of a database *)

(** The constraints of the schema, as a property of the tables. *)
Record consistent (d : Database) : Prop := {
  users_id_below_seq : forall u, In u (users d) -> User.id u < users_id_seq d;
  users_id_unique : NoDup (map User.id (users d));
  users_email_unique : NoDup (map User.email (users d));
  users_username_unique : NoDup (map User.username (users d));
  messages_id_below_seq :
    forall m, In m (messages d) -> Message.id m < messages_id_seq d;
  messages_id_unique : NoDup (map Message.id (messages d));
  messages_text_fits :
    forall m, In m (messages d) -> (String.length (Message.text m) <= 140)%nat;
  messages_user_fk :
    forall m, In m (messages d) -> user_exists d (Message.user_id m) = true;
  follows_unique : NoDup (follows d);
  follows_fk : forall f, In f (follows d) ->
    user_exists d (Follow.user_being_followed_id f) = true /\
    user_exists d (Follow.user_following_id f) = true;
  likes_unique : NoDup (likes d);
  likes_fk : forall l, In l (likes d) ->
    user_exists d (Like.user_id l) = true /\
    message_exists d (Like.message_id l) = true
}.

(** * Properties *)

(** ** Lists, keys and rows *)

Lemma existsb_false_forall {A : Type} (p : A -> bool) (l : list A) :
  existsb p l = false <-> (forall x, In x l -> p x = false).
Proof.
  induction l as [|a l IH]; simpl.
  - split; [intros _ x [] | reflexivity].
  - rewrite orb_false_iff, IH. split.
    + intros [Ha Hl] x [<-|Hx]; auto.
    + intros H; split; [apply H; now left | intros x Hx; apply H; now right].
Qed.

Lemma filter_none {A : Type} (p : A -> bool) (l : list A) :
  (forall x, In x l -> p x = false) -> filter p l = [].
Proof.
  induction l as [|a l IH]; simpl; intros H; [reflexivity|].
  rewrite (H a (or_introl eq_refl)). apply IH. intros x Hx. apply H. now right.
Qed.

Lemma filter_all {A : Type} (p : A -> bool) (l : list A) :
  (forall x, In x l -> p x = true) -> filter p l = l.
Proof.
  induction l as [|a l IH]; simpl; intros H; [reflexivity|].
  rewrite (H a (or_introl eq_refl)). f_equal. apply IH.
  intros x Hx. apply H. now right.
Qed.

Lemma NoDup_snoc {A : Type} (l : list A) (x : A) :
  NoDup l -> ~ In x l -> NoDup (l ++ [x]).
Proof.
  induction l as [|a l IH]; simpl; intros Hnd Hx.
  - constructor; [intros [] | constructor].
  - inversion Hnd as [|? ? Ha Hl]; subst. constructor.
    + rewrite in_app_iff. simpl. intros [H|[H|[]]]; [contradiction|].
      apply Hx. now left.
    + apply IH; [assumption | intros H; apply Hx; now right].
Qed.

Section KeyedRows.

Variables (A K : Type) (key : A -> K) (eqb : K -> K -> bool).
Hypothesis eqb_eq : forall x y, eqb x y = true <-> x = y.

Lemma filter_key_absent (l : list A) (k : K) :
  ~ In k (map key l) -> filter (fun v => eqb (key v) k) l = [].
Proof.
  intros H. apply filter_none. intros x Hx.
  destruct (eqb (key x) k) eqn:E; [|reflexivity].
  apply eqb_eq in E. exfalso. apply H. rewrite <- E. now apply in_map.
Qed.

Lemma filter_key_unique (l : list A) (u : A) :
  NoDup (map key l) -> In u l -> filter (fun v => eqb (key v) (key u)) l = [u].
Proof.
  induction l as [|a l IH]; simpl; intros Hnd Hin; [contradiction|].
  inversion Hnd as [|? ? Ha Hl]; subst. destruct Hin as [->|Hin].
  - replace (eqb (key u) (key u)) with true
      by (symmetry; now apply eqb_eq).
    f_equal. now apply filter_key_absent.
  - destruct (eqb (key a) (key u)) eqn:E.
    + apply eqb_eq in E. exfalso. apply Ha. rewrite E. now apply in_map.
    + now apply IH.
Qed.

Lemma find_key_present (l : list A) (k : K) :
  existsb (fun v => eqb (key v) k) l = true ->
  exists u, find (fun v => eqb (key v) k) l = Some u /\ In u l /\ key u = k.
Proof.
  induction l as [|a l IH]; simpl; [discriminate|].
  destruct (eqb (key a) k) eqn:E; simpl.
  - intros _. exists a. apply eqb_eq in E. auto.
  - intros H. destruct (IH H) as (u & Hf & Hin & Hk). exists u. auto.
Qed.

End KeyedRows.

Lemma Follow_eqb_eq (f g : Follow.t) : Follow.eqb f g = true <-> f = g.
Proof.
  destruct f as [a b], g as [c d]. unfold Follow.eqb; simpl.
  rewrite andb_true_iff, !Z.eqb_eq. split.
  - intros [-> ->]. reflexivity.
  - intros H. inversion H. auto.
Qed.

Lemma Like_eqb_eq (l k : Like.t) : Like.eqb l k = true <-> l = k.
Proof.
  destruct l as [a b], k as [c d]. unfold Like.eqb; simpl.
  rewrite andb_true_iff, !Z.eqb_eq. split.
  - intros [-> ->]. reflexivity.
  - intros H. inversion H. auto.
Qed.

Lemma Follow_absent (f : Follow.t) (l : list Follow.t) :
  existsb (Follow.eqb f) l = false <-> ~ In f l.
Proof.
  rewrite existsb_false_forall. split.
  - intros H Hin. specialize (H f Hin).
    assert (Follow.eqb f f = true) by now apply Follow_eqb_eq. congruence.
  - intros H x Hx. destruct (Follow.eqb f x) eqn:E; [|reflexivity].
    apply Follow_eqb_eq in E. subst. contradiction.
Qed.

Lemma Like_absent (k : Like.t) (l : list Like.t) :
  existsb (Like.eqb k) l = false <-> ~ In k l.
Proof.
  rewrite existsb_false_forall. split.
  - intros H Hin. specialize (H k Hin).
    assert (Like.eqb k k = true) by now apply Like_eqb_eq. congruence.
  - intros H x Hx. destruct (Like.eqb k x) eqn:E; [|reflexivity].
    apply Like_eqb_eq in E. subst. contradiction.
Qed.

Lemma user_exists_iff (d : Database) (uid : Z) :
  user_exists d uid = true <-> In uid (map User.id (users d)).
Proof.
  unfold user_exists. rewrite existsb_exists, in_map_iff. split.
  - intros (u & Hu & E). apply Z.eqb_eq in E. eauto.
  - intros (u & E & Hu). exists u. split; [assumption | now apply Z.eqb_eq].
Qed.

Lemma message_exists_iff (d : Database) (mid : Z) :
  message_exists d mid = true <-> In mid (map Message.id (messages d)).
Proof.
  unfold message_exists. rewrite existsb_exists, in_map_iff. split.
  - intros (m & Hm & E). apply Z.eqb_eq in E. eauto.
  - intros (m & E & Hm). exists m. split; [assumption | now apply Z.eqb_eq].
Qed.

Lemma get_user_exists (d : Database) (uid : Z) :
  user_exists d uid = true ->
  exists u, get_user d uid = Some u /\ In u (users d) /\ User.id u = uid.
Proof.
  unfold user_exists, get_user.
  apply (find_key_present _ _ User.id Z.eqb Z.eqb_eq).
Qed.

Lemma get_message_exists (d : Database) (mid : Z) :
  message_exists d mid = true ->
  exists m, get_message d mid = Some m /\ In m (messages d) /\
            Message.id m = mid.
Proof.
  unfold message_exists, get_message.
  apply (find_key_present _ _ Message.id Z.eqb Z.eqb_eq).
Qed.

(** ** The session *)

Lemma flush_clean (s : Session) : new s = [] -> flush s = Ok (tt, s).
Proof.
  destruct s as [d n]; simpl. intros ->. reflexivity.
Qed.

Lemma flush_leaves_clean (s s1 : Session) :
  flush s = Ok (tt, s1) -> new s1 = [].
Proof.
  unfold flush. destruct (flush_db (new s) (db s)); [|discriminate].
  intros H. inversion H. reflexivity.
Qed.

Lemma set_follows_same (d : Database) : set_follows d (follows d) = d.
Proof. destruct d; reflexivity. Qed.

Lemma set_likes_same (d : Database) : set_likes d (likes d) = d.
Proof. destruct d; reflexivity. Qed.

Lemma session_eta (s : Session) : mkSession (db s) (new s) = s.
Proof. destruct s; reflexivity. Qed.

(** ** The inserts keep the database consistent *)

Lemma user_exists_mono (d d' : Database) (uid : Z) :
  (forall u, In u (users d) -> In u (users d')) ->
  user_exists d uid = true -> user_exists d' uid = true.
Proof.
  unfold user_exists. rewrite !existsb_exists.
  intros H (u & Hu & E). exists u. auto.
Qed.

Lemma message_exists_mono (d d' : Database) (mid : Z) :
  (forall m, In m (messages d) -> In m (messages d')) ->
  message_exists d mid = true -> message_exists d' mid = true.
Proof.
  unfold message_exists. rewrite !existsb_exists.
  intros H (m & Hm & E). exists m. auto.
Qed.

Lemma string_key_absent {A : Type} (key : A -> string) (l : list A)
  (k : string) :
  existsb (fun v => String.eqb (key v) k) l = false -> ~ In k (map key l).
Proof.
  rewrite existsb_false_forall, in_map_iff. intros H (v & E & Hv).
  specialize (H v Hv). rewrite E, String.eqb_refl in H. discriminate.
Qed.

Lemma varchar_fits (n : nat) (s : string) :
  (String.length s <= n)%nat -> varchar n s = Ok s.
Proof.
  intros H. unfold varchar. apply Nat.leb_le in H. now rewrite H.
Qed.

Lemma length_substring_le (n : nat) (s : string) :
  (String.length (substring 0 n s) <= n)%nat.
Proof.
  revert s. induction n as [|n IH]; intros [|c s]; simpl; try lia.
  specialize (IH s). lia.
Qed.

Lemma varchar_length (n : nat) (s t : string) :
  varchar n s = Ok t -> (String.length t <= n)%nat.
Proof.
  unfold varchar. destruct (String.length s <=? n)%nat eqn:E.
  - intros H. inversion H; subst. now apply Nat.leb_le.
  - destruct (all_spaces _); [|discriminate].
    intros H. inversion H; subst. apply length_substring_le.
Qed.

Lemma varchar_refuses (n : nat) (s : string) :
  (n < String.length s)%nat ->
  all_spaces (substring n (String.length s - n) s) = false ->
  varchar n s = Raise DataError.
Proof.
  intros H E. unfold varchar. apply Nat.leb_gt in H. now rewrite H, E.
Qed.

Ltac split_binds :=
  repeat match goal with
         | H : rbind ?r _ = Ok _ |- _ =>
             destruct r eqn:?; simpl in H; [|discriminate H]
         end.

Ltac split_ifs :=
  repeat match goal with
         | H : context [if ?c then _ else _] |- _ =>
             destruct c eqn:?; try discriminate H
         end.

Lemma insert_user_consistent (u : User.transient) (d d' : Database) :
  consistent d -> insert_user u d = Ok d' -> consistent d'.
Proof.
  intros C H. unfold insert_user in H. split_binds. split_ifs.
  inversion H; subst d'; clear H. destruct C.
  match goal with H : user_exists _ _ = false |- _ =>
    assert (Hfresh : ~ In (users_id_seq d) (map User.id (users d)))
      by (rewrite <- user_exists_iff, H; discriminate) end.
  constructor; simpl; try assumption.
  - intros v Hv. apply in_app_iff in Hv. destruct Hv as [Hv|[<-|[]]]; simpl.
    + specialize (users_id_below_seq0 v Hv). lia.
    + lia.
  - rewrite map_app. simpl. now apply NoDup_snoc.
  - rewrite map_app. simpl. apply NoDup_snoc; [assumption|].
    now apply string_key_absent.
  - rewrite map_app. simpl. apply NoDup_snoc; [assumption|].
    now apply string_key_absent.
  - intros m Hm. eapply user_exists_mono; [|apply messages_user_fk0, Hm].
    simpl. intros v Hv. apply in_app_iff. now left.
  - intros f Hf. destruct (follows_fk0 f Hf) as [H1 H2].
    split; (eapply user_exists_mono; [|eassumption]);
      simpl; intros v Hv; apply in_app_iff; now left.
  - intros l Hl. destruct (likes_fk0 l Hl) as [H1 H2]. split; [|exact H2].
    eapply user_exists_mono; [|eassumption].
    simpl. intros v Hv. apply in_app_iff. now left.
Qed.

Lemma insert_message_consistent (m : Message.transient) (d d' : Database) :
  consistent d -> insert_message m d = Ok d' -> consistent d'.
Proof.
  intros C H. unfold insert_message in H. split_binds. split_ifs.
  inversion H; subst d'; clear H. destruct C.
  match goal with H : message_exists _ _ = false |- _ =>
    assert (Hfresh : ~ In (messages_id_seq d) (map Message.id (messages d)))
      by (rewrite <- message_exists_iff, H; discriminate) end.
  match goal with H : varchar _ _ = Ok _ |- _ =>
    apply varchar_length in H end.
  match goal with H : negb (user_exists _ _) = false |- _ =>
    apply negb_false_iff in H end.
  constructor; simpl; try assumption.
  - intros v Hv. apply in_app_iff in Hv. destruct Hv as [Hv|[<-|[]]]; simpl.
    + specialize (messages_id_below_seq0 v Hv). lia.
    + lia.
  - rewrite map_app. simpl. now apply NoDup_snoc.
  - intros v Hv. apply in_app_iff in Hv. destruct Hv as [Hv|[<-|[]]]; simpl;
      auto.
  - intros v Hv. apply in_app_iff in Hv. destruct Hv as [Hv|[<-|[]]]; simpl.
    + apply (messages_user_fk0 v Hv).
    + assumption.
  - intros l Hl. destruct (likes_fk0 l Hl) as [H1 H2]. split; [exact H1|].
    eapply message_exists_mono; [|eassumption].
    simpl. intros v Hv. apply in_app_iff. now left.
Qed.

Lemma insert_follow_consistent (f : Follow.t) (d d' : Database) :
  consistent d -> insert_follow f d = Ok d' -> consistent d'.
Proof.
  intros C H. unfold insert_follow in H. split_ifs.
  inversion H; subst d'; clear H. destruct C.
  repeat match goal with H : negb _ = false |- _ =>
    apply negb_false_iff in H end.
  constructor; simpl; try assumption.
  - apply NoDup_snoc; [assumption | now apply Follow_absent].
  - intros g Hg. apply in_app_iff in Hg. destruct Hg as [Hg|[<-|[]]].
    + apply (follows_fk0 g Hg).
    + split; assumption.
Qed.

Lemma insert_like_consistent (l : Like.t) (d d' : Database) :
  consistent d -> insert_like l d = Ok d' -> consistent d'.
Proof.
  intros C H. unfold insert_like in H. split_ifs.
  inversion H; subst d'; clear H. destruct C.
  repeat match goal with H : negb _ = false |- _ =>
    apply negb_false_iff in H end.
  constructor; simpl; try assumption.
  - apply NoDup_snoc; [assumption | now apply Like_absent].
  - intros g Hg. apply in_app_iff in Hg. destruct Hg as [Hg|[<-|[]]].
    + apply (likes_fk0 g Hg).
    + split; assumption.
Qed.

Lemma insert_all_consistent {A : Type}
  (ins : A -> Database -> Result Database) (l : list A) :
  (forall x d d', consistent d -> ins x d = Ok d' -> consistent d') ->
  forall d d', consistent d -> insert_all ins l d = Ok d' -> consistent d'.
Proof.
  intros Hins. induction l as [|x l IH]; simpl; intros d d' C H.
  - inversion H; subst. assumption.
  - destruct (ins x d) as [d1|e] eqn:E; simpl in H; [|discriminate].
    eapply IH; [|eassumption]. eapply Hins; eassumption.
Qed.

Lemma flush_db_consistent (pending : list Instance) (d d' : Database) :
  consistent d -> flush_db pending d = Ok d' -> consistent d'.
Proof.
  unfold flush_db. intros C H.
  destruct (insert_all insert_user _ d) as [d1|] eqn:E1; simpl in H;
    [|discriminate].
  destruct (insert_all insert_message _ d1) as [d2|] eqn:E2; simpl in H;
    [|discriminate].
  destruct (insert_all insert_follow _ d2) as [d3|] eqn:E3; simpl in H;
    [|discriminate].
  eapply (insert_all_consistent insert_like);
    [apply insert_like_consistent | | eassumption].
  eapply (insert_all_consistent insert_follow);
    [apply insert_follow_consistent | | eassumption].
  eapply (insert_all_consistent insert_message);
    [apply insert_message_consistent | | eassumption].
  eapply (insert_all_consistent insert_user);
    [apply insert_user_consistent | | eassumption].
  assumption.
Qed.

(** A flush that succeeds leaves a consistent database consistent. *)
Lemma flush_consistent (s s1 : Session) :
  consistent (db s) -> flush s = Ok (tt, s1) -> consistent (db s1).
Proof.
  unfold flush. intros C H.
  destruct (flush_db (new s) (db s)) as [d|] eqn:E; [|discriminate].
  inversion H; subst; simpl. eapply flush_db_consistent; eassumption.
Qed.

(** ** Signup and authentication *)

Section Authentication.

Context {bcrypt : Bcrypt}.

(** [authenticate] after its flush: a case analysis on the rows with that
    username and on the verification. *)
Lemma authenticate_flushed (s s1 : Session) (username password : string) :
  flush s = Ok (tt, s1) ->
  authenticate username password s =
  match scalar_one_or_none
          (filter (fun u => String.eqb (User.username u) username)
                  (users (db s1))) with
  | Raise e => Raise e
  | Ok None => Ok (False_, s1)
  | Ok (Some u) =>
      match check_password_hash (User.password u) password with
      | Ok true => Ok (TheUser u, s1)
      | Ok false => Ok (False_, s1)
      | Raise e => Raise e
      end
  end.
Proof.
  intros H. unfold authenticate, bind, autoflush, get_db, lift, ret.
  rewrite H. destruct (scalar_one_or_none _) as [[u|]|e]; try reflexivity.
  destruct (check_password_hash _ _) as [[|]|e]; reflexivity.
Qed.

Lemma username_rows_unique (d : Database) (u : User.t) :
  consistent d -> In u (users d) ->
  filter (fun v => String.eqb (User.username v) (User.username u)) (users d)
  = [u].
Proof.
  intros C Hu.
  apply (filter_key_unique _ _ User.username String.eqb String.eqb_eq);
    [apply C | assumption].
Qed.

Lemma username_rows_absent (d : Database) (username : string) :
  (forall v, In v (users d) -> User.username v <> username) ->
  filter (fun v => String.eqb (User.username v) username) (users d) = [].
Proof.
  intros H. apply filter_none. intros v Hv.
  apply String.eqb_neq. now apply H.
Qed.

(** C2: [authenticate] returns the user exactly when a user with that
    username is stored and the password verifies against the stored digest;
    for an unknown username and for a wrong password it returns the same
    value, [False], in the same session state; and it always returns one of
    the two when the stored digests are ones the hasher can check. *)
Theorem authenticate_user_iff_found_and_verified
  (s s1 : Session) (username password : string) :
  consistent (db s) -> flush s = Ok (tt, s1) ->
  (forall u,
     authenticate username password s = Ok (TheUser u, s1) <->
     In u (users (db s1)) /\ User.username u = username /\
     check_password_hash (User.password u) password = Ok true) /\
  ((forall v, In v (users (db s1)) -> User.username v <> username) ->
   authenticate username password s = Ok (False_, s1)) /\
  (forall v, In v (users (db s1)) -> User.username v = username ->
     check_password_hash (User.password v) password = Ok false ->
     authenticate username password s = Ok (False_, s1)) /\
  ((forall v, In v (users (db s1)) ->
      exists b, check_password_hash (User.password v) password = Ok b) ->
   exists r, authenticate username password s = Ok (r, s1)).
Proof.
  intros C F. pose proof (flush_consistent _ _ C F) as C1.
  rewrite (authenticate_flushed _ _ _ _ F). split; [|split; [|split]].
  - intros u. split.
    + intros H.
      destruct (filter _ (users (db s1))) as [|v [|w l]] eqn:E; simpl in H;
        try discriminate.
      assert (Hv : In v (filter (fun u0 => String.eqb (User.username u0)
                                   username) (users (db s1))))
        by (rewrite E; now left).
      apply filter_In in Hv. destruct Hv as [Hv Hn].
      apply String.eqb_eq in Hn.
      destruct (check_password_hash (User.password v) password)
        as [[|]|e] eqn:Hc; try discriminate.
      inversion H; subst u. auto.
    + intros (Hu & Hn & Hc). subst username.
      rewrite (username_rows_unique _ _ C1 Hu). simpl. rewrite Hc.
      reflexivity.
  - intros H. rewrite (username_rows_absent _ _ H). reflexivity.
  - intros v Hv Hn Hc. subst username.
    rewrite (username_rows_unique _ _ C1 Hv). simpl. rewrite Hc.
    reflexivity.
  - intros Hdigests.
    destruct (filter (fun u => String.eqb (User.username u) username)
                     (users (db s1))) as [|v l] eqn:E; simpl; [eauto|].
    assert (Hv : In v (filter (fun u => String.eqb (User.username u) username)
                              (users (db s1))))
      by (rewrite E; now left).
    apply filter_In in Hv. destruct Hv as [Hv Hn].
    apply String.eqb_eq in Hn. subst username.
    rewrite (username_rows_unique _ _ C1 Hv) in E. inversion E; subst l.
    destruct (Hdigests v Hv) as [[|] ->]; eauto.
Qed.

End Authentication.

Ltac concrete_rows :=
  simpl; intros;
  repeat match goal with
         | H : _ \/ _ |- _ => destruct H
         | H : False |- _ => contradiction
         end;
  subst; simpl; try lia; auto.

Ltac concrete_nodup :=
  simpl;
  repeat (constructor;
          [simpl; intros H;
           repeat (destruct H as [H|H]; [discriminate H|]); exact H |]);
  constructor.

Lemma consistent_db0 : consistent db0.
Proof. constructor; try concrete_nodup; concrete_rows. Qed.

Lemma consistent_db1 : consistent db1.
Proof. constructor; try concrete_nodup; concrete_rows. Qed.

Lemma toy_bcrypt_spec : BcryptSpec toy_bcrypt.
Proof.
  constructor; simpl.
  - intros _ pw h. destruct (String.eqb pw EmptyString); [discriminate|].
    intros H. inversion H; subst h. unfold toy_digest.
    destruct (String.eqb pw toy_digest_a); reflexivity.
  - intros _ pw h. destruct (String.eqb pw EmptyString); [discriminate|].
    intros H. inversion H; subst h. unfold toy_digest.
    destruct (String.eqb pw toy_digest_a); reflexivity.
  - intros _ pw h. destruct (String.eqb pw EmptyString); [discriminate|].
    intros H. inversion H; subst h. unfold toy_digest.
    destruct (String.eqb pw toy_digest_a) eqn:E.
    + apply String.eqb_eq in E. subst pw. discriminate.
    + apply String.eqb_neq in E. congruence.
Qed.

Lemma authenticate_user_iff_found_and_verified_witness :
  consistent (db session0) /\ flush session0 = Ok (tt, session0) /\
  (authenticate (bcrypt := toy_bcrypt) "ana" "secret" session0
   = Ok (TheUser ana, session0)) /\
  (authenticate (bcrypt := toy_bcrypt) "zed" "secret" session0
   = Ok (False_, session0)) /\
  (authenticate (bcrypt := toy_bcrypt) "ana" toy_digest_a session0
   = Ok (False_, session0)).
Proof.
  pose proof (authenticate_user_iff_found_and_verified
                (bcrypt := toy_bcrypt) session0 session0 "ana" "secret"
                consistent_db0 eq_refl) as (Hu & _ & _ & _).
  pose proof (authenticate_user_iff_found_and_verified
                (bcrypt := toy_bcrypt) session0 session0 "zed" "secret"
                consistent_db0 eq_refl) as (_ & Hz & _ & _).
  pose proof (authenticate_user_iff_found_and_verified
                (bcrypt := toy_bcrypt) session0 session0 "ana" toy_digest_a
                consistent_db0 eq_refl) as (_ & _ & Hw & _).
  split; [exact consistent_db0 | split; [reflexivity|]].
  split; [|split].
  - apply Hu. simpl. auto.
  - apply Hz. simpl. intros v [<-|[<-|[]]]; discriminate.
  - apply (Hw ana); [simpl; auto | reflexivity | reflexivity].
Defined.

Lemma insert_user_accepts (u : User.transient) (d : Database) :
  consistent d ->
  (String.length (User.t_email u) <= 50)%nat ->
  (String.length (User.t_username u) <= 30)%nat ->
  (String.length (User.t_image_url u) <= 255)%nat ->
  (String.length (User.t_password u) <= 100)%nat ->
  (forall v, In v (users d) ->
     User.username v <> User.t_username u /\ User.email v <> User.t_email u) ->
  insert_user u d =
  Ok (set_users d
        (users d ++
         [User.mk (users_id_seq d) (User.t_email u) (User.t_username u)
                  (User.t_image_url u) DEFAULT_HEADER_IMAGE_URL
                  EmptyString EmptyString (User.t_password u)])
        (users_id_seq d + 1)).
Proof.
  intros C He Hn Hi Hp Hfree. unfold insert_user.
  rewrite !varchar_fits by assumption. simpl.
  assert (E1 : user_exists d (users_id_seq d) = false).
  { unfold user_exists. apply existsb_false_forall. intros v Hv.
    apply Z.eqb_neq. pose proof (users_id_below_seq _ C v Hv). lia. }
  assert (E2 : existsb (fun v => String.eqb (User.email v) (User.t_email u))
                       (users d) = false).
  { apply existsb_false_forall. intros v Hv. apply String.eqb_neq.
    now apply Hfree. }
  assert (E3 : existsb (fun v => String.eqb (User.username v)
                                            (User.t_username u))
                       (users d) = false).
  { apply existsb_false_forall. intros v Hv. apply String.eqb_neq.
    now apply Hfree. }
  rewrite E1, E2, E3. reflexivity.
Qed.

Lemma flush_one_user (d d1 : Database) (u : User.transient) :
  insert_user u d = Ok d1 ->
  flush (mkSession d [AUser u]) = Ok (tt, mkSession d1 []).
Proof.
  intros H. unfold flush, flush_db; simpl. rewrite H. reflexivity.
Qed.

Section Signup.

Context {bcrypt : Bcrypt}.

(** C1: for a password the hasher accepts and a username and email that fit
    their columns and are not taken, [signup] followed by
    [authenticate username password] returns a stored user with that
    username and email; its password field holds the digest that
    [generate_password_hash] produced, and differs from the plaintext. *)
Theorem signup_then_authenticate
  (s : Session) (salt username email password : string)
  (image_url : option string) :
  BcryptSpec bcrypt ->
  consistent (db s) -> new s = [] ->
  (String.length username <= 30)%nat ->
  (String.length email <= 50)%nat ->
  (String.length (match image_url with
                  | Some url => url
                  | None => DEFAULT_IMAGE_URL
                  end) <= 255)%nat ->
  (forall v, In v (users (db s)) ->
     User.username v <> username /\ User.email v <> email) ->
  forall h, generate_password_hash salt password = Ok h ->
  exists (u : User.t) (s' : Session),
    (signup salt username email password image_url ;;
     authenticate username password) s = Ok (TheUser u, s') /\
    In u (users (db s')) /\
    User.username u = username /\
    User.email u = email /\
    User.password u = h /\
    User.password u <> password.
Proof.
  intros B C Hnew Hn He Hi Hfree h Hh.
  set (url := match image_url with
              | Some url => url
              | None => DEFAULT_IMAGE_URL
              end) in *.
  set (row := User.mk (users_id_seq (db s)) email username url
                      DEFAULT_HEADER_IMAGE_URL EmptyString EmptyString h).
  set (d1 := set_users (db s) (users (db s) ++ [row])
                       (users_id_seq (db s) + 1)).
  assert (Hins : insert_user (User.init username email h url) (db s) = Ok d1).
  { apply insert_user_accepts; simpl; try assumption.
    rewrite (digest_length _ B _ _ _ Hh). lia. }
  pose proof (flush_one_user _ _ _ Hins) as Hflush.
  exists row, (mkSession d1 []).
  split; [|repeat split].
  - unfold bind at 1. unfold signup, bind, lift, session_add, ret.
    rewrite Hh. simpl. rewrite Hnew. simpl. fold url.
    rewrite (authenticate_flushed _ _ _ _ Hflush). simpl.
    rewrite filter_app. simpl. rewrite String.eqb_refl.
    rewrite username_rows_absent by (intros v Hv; now apply Hfree).
    simpl. rewrite (check_generate _ B _ _ _ Hh). reflexivity.
  - simpl. apply in_app_iff. right. now left.
  - simpl. exact (digest_not_plaintext _ B _ _ _ Hh).
Qed.

End Signup.

Lemma signup_then_authenticate_witness :
  exists (u : User.t) (s' : Session),
    (signup (bcrypt := toy_bcrypt) "salt" "cy" "cy@x.com" "secret" None ;;
     authenticate (bcrypt := toy_bcrypt) "cy" "secret") session0
    = Ok (TheUser u, s') /\
    In u (users (db s')) /\
    User.username u = "cy"%string /\
    User.email u = "cy@x.com"%string /\
    User.password u = toy_digest_a /\
    User.password u <> "secret"%string.
Proof.
  apply (signup_then_authenticate (bcrypt := toy_bcrypt) session0
           "salt" "cy" "cy@x.com" "secret" None).
  - exact toy_bcrypt_spec.
  - exact consistent_db0.
  - reflexivity.
  - simpl. lia.
  - simpl. lia.
  - simpl. lia.
  - simpl. intros v [<-|[<-|[]]]; split; discriminate.
  - reflexivity.
Defined.

(** ** Sequencing *)

Lemma bind_ok {A B : Type} (m : M A) (k : A -> M B) (s s' : Session) (a : A) :
  m s = Ok (a, s') -> bind m k s = k a s'.
Proof. unfold bind. intros ->. reflexivity. Qed.

Lemma bind_raise {A B : Type} (m : M A) (k : A -> M B) (s : Session)
  (e : Exception) :
  m s = Raise e -> bind m k s = Raise e.
Proof. unfold bind. intros ->. reflexivity. Qed.

Lemma flush_flushed (s s1 : Session) :
  flush s = Ok (tt, s1) -> flush s1 = Ok (tt, s1).
Proof. intros H. apply flush_clean. eapply flush_leaves_clean, H. Qed.

(** ** Filters and maps *)

Lemma length_filter_map {A B : Type} (p : B -> bool) (g : A -> B)
  (l : list A) :
  List.length (filter p (map g l)) = List.length (filter (fun x => p (g x)) l).
Proof.
  induction l as [|a l IH]; simpl; [reflexivity|].
  destruct (p (g a)); simpl; congruence.
Qed.

Lemma filter_filter {A : Type} (p q : A -> bool) (l : list A) :
  filter p (filter q l) = filter (fun x => q x && p x) l.
Proof.
  induction l as [|a l IH]; simpl; [reflexivity|].
  destruct (q a); simpl; [destruct (p a)|]; simpl; congruence.
Qed.

(** ** Follow edges *)

Lemma insert_follow_accepts (f : Follow.t) (d : Database) :
  ~ In f (follows d) ->
  user_exists d (Follow.user_being_followed_id f) = true ->
  user_exists d (Follow.user_following_id f) = true ->
  insert_follow f d = Ok (set_follows d (follows d ++ [f])).
Proof.
  intros Hf H1 H2. unfold insert_follow.
  apply Follow_absent in Hf. rewrite Hf, H1, H2. reflexivity.
Qed.

Lemma insert_follow_duplicate (f : Follow.t) (d : Database) :
  In f (follows d) ->
  insert_follow f d =
  Raise (IntegrityError (UniqueViolation follows_pair)).
Proof.
  intros Hf. unfold insert_follow.
  destruct (existsb (Follow.eqb f) (follows d)) eqn:E; [reflexivity|].
  apply Follow_absent in E. contradiction.
Qed.

Lemma flush_one_follow (d : Database) (f : Follow.t) :
  flush (mkSession d [AFollow f]) =
  match insert_follow f d with
  | Ok d1 => Ok (tt, mkSession d1 [])
  | Raise e => Raise e
  end.
Proof.
  unfold flush, flush_db; simpl. destruct (insert_follow f d); reflexivity.
Qed.

Lemma follow_clean (s : Session) (self other_user : User.t) :
  new s = [] ->
  follow self other_user s =
  Ok (tt, mkSession (db s)
            [AFollow (Follow.mk (User.id other_user) (User.id self))]).
Proof.
  intros H. unfold follow, session_add. rewrite H. reflexivity.
Qed.

Lemma delete_follow_flushed (s s1 : Session) (followed following : Z) :
  flush s = Ok (tt, s1) ->
  delete_follow followed following s =
  Ok (List.length (filter (Follow.eqb (Follow.mk followed following))
                          (follows (db s1))),
      mkSession
        (set_follows (db s1)
           (filter (fun f => negb (Follow.eqb (Follow.mk followed following) f))
                   (follows (db s1))))
        []).
Proof.
  intros H. unfold delete_follow, bind, autoflush, get_db, put_db, ret.
  rewrite H. simpl. rewrite (flush_leaves_clean _ _ H). reflexivity.
Qed.

Lemma unfollow_flushed (s s1 : Session) (self other_user : User.t) :
  flush s = Ok (tt, s1) ->
  unfollow self other_user s =
  Ok (tt,
      mkSession
        (set_follows (db s1)
           (filter (fun f => negb (Follow.eqb
                       (Follow.mk (User.id other_user) (User.id self)) f))
                   (follows (db s1))))
        []).
Proof.
  intros H. unfold unfollow.
  rewrite (bind_ok _ _ _ _ _ (delete_follow_flushed _ _ _ _ H)).
  reflexivity.
Qed.

Lemma filter_out_added (f : Follow.t) (l : list Follow.t) :
  ~ In f l -> filter (fun g => negb (Follow.eqb f g)) (l ++ [f]) = l.
Proof.
  intros H. rewrite filter_app. simpl.
  replace (Follow.eqb f f) with true by (symmetry; now apply Follow_eqb_eq).
  simpl. rewrite app_nil_r. apply filter_all. intros g Hg.
  apply negb_true_iff. destruct (Follow.eqb f g) eqn:E; [|reflexivity].
  apply Follow_eqb_eq in E. subst. contradiction.
Qed.

(** C8: a self-follow is not rejected. For a stored user A with no
    self-edge yet, [A.follow(A)] and the commit succeed and the table holds
    an edge whose two ids are both A's: [insert_follow] compares the pair
    with the stored pairs and each id with [users.id], never the two ids
    with each other. *)
Theorem self_follow_is_stored (s : Session) (A : User.t) :
  new s = [] ->
  user_exists (db s) (User.id A) = true ->
  ~ In (Follow.mk (User.id A) (User.id A)) (follows (db s)) ->
  exists s1 f,
    (follow A A ;; commit) s = Ok (tt, s1) /\
    follows (db s1) = follows (db s) ++ [f] /\
    Follow.user_being_followed_id f = User.id A /\
    Follow.user_following_id f = User.id A /\
    Follow.user_being_followed_id f = Follow.user_following_id f.
Proof.
  intros Hnew HA Habs.
  exists (mkSession (set_follows (db s)
            (follows (db s) ++ [Follow.mk (User.id A) (User.id A)])) []),
         (Follow.mk (User.id A) (User.id A)).
  repeat split.
  rewrite (bind_ok _ _ _ _ _ (follow_clean s A A Hnew)).
  unfold commit. rewrite flush_one_follow.
  now rewrite insert_follow_accepts.
Qed.

Lemma self_follow_is_stored_witness :
  exists s1 f,
    (follow ana ana ;; commit) session0 = Ok (tt, s1) /\
    follows (db s1) = follows (db session0) ++ [f] /\
    Follow.user_being_followed_id f = User.id ana /\
    Follow.user_following_id f = User.id ana /\
    Follow.user_being_followed_id f = Follow.user_following_id f.
Proof.
  apply (self_follow_is_stored session0 ana).
  - reflexivity.
  - reflexivity.
  - simpl. intros [].
Defined.

(** ** Like edges *)

Lemma insert_like_duplicate (l : Like.t) (d : Database) :
  In l (likes d) ->
  insert_like l d = Raise (IntegrityError (UniqueViolation likes_pair)).
Proof.
  intros Hl. unfold insert_like.
  destruct (existsb (Like.eqb l) (likes d)) eqn:E; [reflexivity|].
  apply Like_absent in E. contradiction.
Qed.

Lemma flush_one_like (d : Database) (l : Like.t) :
  flush (mkSession d [ALike l]) =
  match insert_like l d with
  | Ok d1 => Ok (tt, mkSession d1 [])
  | Raise e => Raise e
  end.
Proof.
  unfold flush, flush_db; simpl. destruct (insert_like l d); reflexivity.
Qed.

Lemma like_clean (s : Session) (self : User.t) (message_id : Z) :
  new s = [] ->
  like self message_id s =
  Ok (tt, mkSession (db s) [ALike (Like.mk (User.id self) message_id)]).
Proof.
  intros H. unfold like, session_add. rewrite H. reflexivity.
Qed.

(** C5: a duplicate edge is refused at commit by the uniqueness of the
    pair. While the edge from A to B is stored, a further [A.follow(B)]
    stages a row without complaint and the commit raises the violation of
    the constraint on (user_being_followed_id, user_following_id); while the
    Like edge (user, message) is stored, a further [user.like(message_id)]
    does the same with the key (user_id, message_id). *)
Theorem duplicate_edge_fails_at_commit
  (s : Session) (A B : User.t) (message_id : Z) :
  new s = [] ->
  (In (Follow.mk (User.id B) (User.id A)) (follows (db s)) ->
   follow A B s =
   Ok (tt, mkSession (db s) [AFollow (Follow.mk (User.id B) (User.id A))]) /\
   (follow A B ;; commit) s =
   Raise (IntegrityError (UniqueViolation follows_pair))) /\
  (In (Like.mk (User.id A) message_id) (likes (db s)) ->
   like A message_id s =
   Ok (tt, mkSession (db s) [ALike (Like.mk (User.id A) message_id)]) /\
   (like A message_id ;; commit) s =
   Raise (IntegrityError (UniqueViolation likes_pair))).
Proof.
  intros Hnew. split; intros Hin.
  - pose proof (follow_clean s A B Hnew) as Hf. split; [exact Hf|].
    rewrite (bind_ok _ _ _ _ _ Hf). unfold commit.
    rewrite flush_one_follow. now rewrite insert_follow_duplicate.
  - pose proof (like_clean s A message_id Hnew) as Hl. split; [exact Hl|].
    rewrite (bind_ok _ _ _ _ _ Hl). unfold commit.
    rewrite flush_one_like. now rewrite insert_like_duplicate.
Qed.

Lemma duplicate_edge_fails_at_commit_witness :
  new session1 = [] /\
  In (Follow.mk (User.id ana) (User.id bo)) (follows (db session1)) /\
  In (Like.mk (User.id bo) 1) (likes (db session1)) /\
  (follow bo ana ;; commit) session1 =
  Raise (IntegrityError (UniqueViolation follows_pair)) /\
  (like bo 1 ;; commit) session1 =
  Raise (IntegrityError (UniqueViolation likes_pair)).
Proof.
  assert (Hf : In (Follow.mk (User.id ana) (User.id bo))
                  (follows (db session1))) by (simpl; auto).
  assert (Hl : In (Like.mk (User.id bo) 1) (likes (db session1)))
    by (simpl; auto).
  destruct (duplicate_edge_fails_at_commit session1 bo ana 1 eq_refl)
    as [H1 H2].
  split; [reflexivity|]. split; [exact Hf|]. split; [exact Hl|].
  split; [apply (H1 Hf) | apply (H2 Hl)].
Defined.

(** Two follows of the same pair never both commit, whatever the state. *)
Lemma follow_twice_raises (s : Session) (A B : User.t) :
  new s = [] ->
  exists e, (follow A B ;; commit ;; follow A B ;; commit) s = Raise e.
Proof.
  intros Hnew.
  rewrite (bind_ok _ _ _ _ _ (follow_clean s A B Hnew)).
  unfold commit at 1.
  destruct (insert_follow (Follow.mk (User.id B) (User.id A)) (db s))
    as [d1|e] eqn:E.
  - assert (Hin : In (Follow.mk (User.id B) (User.id A)) (follows d1)).
    { unfold insert_follow in E. split_ifs. inversion E; subst; simpl.
      apply in_app_iff. right. now left. }
    assert (Hflush : flush (mkSession (db s)
              [AFollow (Follow.mk (User.id B) (User.id A))])
              = Ok (tt, mkSession d1 [])).
    { rewrite flush_one_follow, E. reflexivity. }
    rewrite (bind_ok _ _ _ _ _ Hflush).
    rewrite (bind_ok _ _ _ _ _ (follow_clean (mkSession d1 []) A B eq_refl)).
    unfold commit. simpl db. rewrite flush_one_follow.
    rewrite (insert_follow_duplicate _ _ Hin). eauto.
  - exists e. apply bind_raise. rewrite flush_one_follow, E. reflexivity.
Qed.

(** ** Bulk deletes: unfollow and unlike *)

Lemma delete_like_flushed (s s1 : Session) (message_id user_id : Z) :
  flush s = Ok (tt, s1) ->
  delete_like message_id user_id s =
  Ok (List.length (filter (Like.eqb (Like.mk user_id message_id))
                          (likes (db s1))),
      mkSession
        (set_likes (db s1)
           (filter (fun l => negb (Like.eqb (Like.mk user_id message_id) l))
                   (likes (db s1))))
        []).
Proof.
  intros H. unfold delete_like, bind, autoflush, get_db, put_db, ret.
  rewrite H. simpl. rewrite (flush_leaves_clean _ _ H). reflexivity.
Qed.

Lemma unlike_flushed (s s1 : Session) (self : User.t) (message_id : Z) :
  flush s = Ok (tt, s1) ->
  unlike self message_id s =
  Ok (tt,
      mkSession
        (set_likes (db s1)
           (filter (fun l => negb (Like.eqb
                       (Like.mk (User.id self) message_id) l))
                   (likes (db s1))))
        []).
Proof.
  intros H. unfold unlike.
  rewrite (bind_ok _ _ _ _ _ (delete_like_flushed _ _ _ _ H)).
  reflexivity.
Qed.

Lemma filter_idem {A : Type} (p : A -> bool) (l : list A) :
  filter p (filter p l) = filter p l.
Proof.
  apply filter_all. intros x Hx. apply filter_In in Hx. tauto.
Qed.

Lemma Follow_filter_absent (f : Follow.t) (l : list Follow.t) :
  ~ In f l ->
  filter (Follow.eqb f) l = [] /\
  filter (fun g => negb (Follow.eqb f g)) l = l.
Proof.
  intros H. apply Follow_absent in H.
  pose proof (proj1 (existsb_false_forall _ _) H) as Hall. split.
  - now apply filter_none.
  - apply filter_all. intros g Hg. now rewrite (Hall g Hg).
Qed.

Lemma Like_filter_absent (k : Like.t) (l : list Like.t) :
  ~ In k l ->
  filter (Like.eqb k) l = [] /\
  filter (fun g => negb (Like.eqb k g)) l = l.
Proof.
  intros H. apply Like_absent in H.
  pose proof (proj1 (existsb_false_forall _ _) H) as Hall. split.
  - now apply filter_none.
  - apply filter_all. intros g Hg. now rewrite (Hall g Hg).
Qed.

Lemma flush_empty (d : Database) :
  flush (mkSession d []) = Ok (tt, mkSession d []).
Proof. reflexivity. Qed.

Lemma flushed_session (s s1 : Session) :
  flush s = Ok (tt, s1) -> mkSession (db s1) [] = s1.
Proof.
  intros H. rewrite <- (flush_leaves_clean _ _ H). apply session_eta.
Qed.

(** C6: [unfollow] and [unlike] of an absent edge delete zero rows, raise
    nothing and leave the flushed session as it is; and a second [unfollow]
    (or [unlike]) in a row changes nothing more. *)
Theorem unfollow_unlike_absent_is_noop
  (s s1 : Session) (self other_user : User.t) (message_id : Z) :
  flush s = Ok (tt, s1) ->
  (~ In (Follow.mk (User.id other_user) (User.id self)) (follows (db s1)) ->
   delete_follow (User.id other_user) (User.id self) s = Ok (0%nat, s1) /\
   unfollow self other_user s = Ok (tt, s1)) /\
  (~ In (Like.mk (User.id self) message_id) (likes (db s1)) ->
   delete_like message_id (User.id self) s = Ok (0%nat, s1) /\
   unlike self message_id s = Ok (tt, s1)) /\
  (unfollow self other_user ;; unfollow self other_user) s
  = unfollow self other_user s /\
  (unlike self message_id ;; unlike self message_id) s
  = unlike self message_id s.
Proof.
  intros H. pose proof (flushed_session _ _ H) as Hs1.
  split; [|split; [|split]].
  - intros Habs. destruct (Follow_filter_absent _ _ Habs) as [E1 E2]. split.
    + rewrite (delete_follow_flushed _ _ _ _ H), E1, E2.
      now rewrite set_follows_same, Hs1.
    + rewrite (unfollow_flushed _ _ _ _ H), E2.
      now rewrite set_follows_same, Hs1.
  - intros Habs. destruct (Like_filter_absent _ _ Habs) as [E1 E2]. split.
    + rewrite (delete_like_flushed _ _ _ _ H), E1, E2.
      now rewrite set_likes_same, Hs1.
    + rewrite (unlike_flushed _ _ _ _ H), E2.
      now rewrite set_likes_same, Hs1.
  - pose proof (unfollow_flushed _ _ self other_user H) as Hu.
    rewrite (bind_ok _ _ _ _ _ Hu), Hu.
    rewrite (unfollow_flushed _ _ self other_user (flush_empty _)).
    simpl. now rewrite filter_idem.
  - pose proof (unlike_flushed _ _ self message_id H) as Hu.
    rewrite (bind_ok _ _ _ _ _ Hu), Hu.
    rewrite (unlike_flushed _ _ self message_id (flush_empty _)).
    simpl. now rewrite filter_idem.
Qed.

Lemma unfollow_unlike_absent_is_noop_witness :
  flush session1 = Ok (tt, session1) /\
  ~ In (Follow.mk (User.id bo) (User.id ana)) (follows (db session1)) /\
  ~ In (Like.mk (User.id ana) 1) (likes (db session1)) /\
  delete_follow (User.id bo) (User.id ana) session1 = Ok (0%nat, session1) /\
  unfollow ana bo session1 = Ok (tt, session1) /\
  delete_like 1 (User.id ana) session1 = Ok (0%nat, session1) /\
  unlike ana 1 session1 = Ok (tt, session1) /\
  (unfollow bo ana ;; unfollow bo ana) session1 = unfollow bo ana session1.
Proof.
  assert (Hf : ~ In (Follow.mk (User.id bo) (User.id ana))
                    (follows (db session1)))
    by (simpl; intros [H|[H|[]]]; discriminate H).
  assert (Hl : ~ In (Like.mk (User.id ana) 1) (likes (db session1)))
    by (simpl; intros [H|[H|[]]]; discriminate H).
  destruct (unfollow_unlike_absent_is_noop session1 session1 ana bo 1 eq_refl)
    as (H1 & H2 & _).
  destruct (unfollow_unlike_absent_is_noop session1 session1 bo ana 1 eq_refl)
    as (_ & _ & H3 & _).
  destruct (H1 Hf) as [H1a H1b]. destruct (H2 Hl) as [H2a H2b].
  repeat (split; [first [reflexivity | assumption]|]). exact H3.
Defined.

Lemma Follow_filter_out_In (followed following : Z) (l : list Follow.t)
  (f : Follow.t) :
  In f (filter (fun g => negb (Follow.eqb (Follow.mk followed following) g)) l)
  <-> In f l /\ ~ (Follow.user_being_followed_id f = followed /\
                   Follow.user_following_id f = following).
Proof.
  rewrite filter_In, negb_true_iff.
  assert (E : Follow.eqb (Follow.mk followed following) f = false <->
              ~ (Follow.user_being_followed_id f = followed /\
                 Follow.user_following_id f = following)).
  { destruct f as [a b]; unfold Follow.eqb; simpl.
    rewrite andb_false_iff, !Z.eqb_neq. split.
    - intros [Hn|Hn] [E1 E2]; congruence.
    - intros Hn. destruct (Z.eq_dec followed a) as [->|Ha]; [|now left].
      right. intros ->. now apply Hn. }
  now rewrite E.
Qed.

Lemma Like_filter_out_In (user_id message_id : Z) (l : list Like.t)
  (k : Like.t) :
  In k (filter (fun g => negb (Like.eqb (Like.mk user_id message_id) g)) l)
  <-> In k l /\ ~ (Like.user_id k = user_id /\
                   Like.message_id k = message_id).
Proof.
  rewrite filter_In, negb_true_iff.
  assert (E : Like.eqb (Like.mk user_id message_id) k = false <->
              ~ (Like.user_id k = user_id /\ Like.message_id k = message_id)).
  { destruct k as [a b]; unfold Like.eqb; simpl.
    rewrite andb_false_iff, !Z.eqb_neq. split.
    - intros [Hn|Hn] [E1 E2]; congruence.
    - intros Hn. destruct (Z.eq_dec user_id a) as [->|Ha]; [|now left].
      right. intros ->. now apply Hn. }
  now rewrite E.
Qed.

(** C9: [unfollow] deletes exactly the Follow rows with both
    [user_being_followed_id = other_user.id] and [user_following_id =
    self.id], and [unlike] exactly the Like rows with both [user_id =
    self.id] and that [message_id]: every other row of the table stays, in
    its place, and the other tables and the identity sequences are as the
    flush left them. *)
Theorem unfollow_unlike_delete_only_addressed_edge
  (s s1 : Session) (self other_user : User.t) (message_id : Z) :
  flush s = Ok (tt, s1) ->
  (exists s2,
     unfollow self other_user s = Ok (tt, s2) /\
     (forall f, In f (follows (db s2)) <->
        In f (follows (db s1)) /\
        ~ (Follow.user_being_followed_id f = User.id other_user /\
           Follow.user_following_id f = User.id self)) /\
     follows (db s2) =
       filter (fun f => negb (Follow.eqb
                 (Follow.mk (User.id other_user) (User.id self)) f))
              (follows (db s1)) /\
     users (db s2) = users (db s1) /\
     messages (db s2) = messages (db s1) /\
     likes (db s2) = likes (db s1) /\
     users_id_seq (db s2) = users_id_seq (db s1) /\
     messages_id_seq (db s2) = messages_id_seq (db s1)) /\
  (exists s2,
     unlike self message_id s = Ok (tt, s2) /\
     (forall l, In l (likes (db s2)) <->
        In l (likes (db s1)) /\
        ~ (Like.user_id l = User.id self /\ Like.message_id l = message_id)) /\
     likes (db s2) =
       filter (fun l => negb (Like.eqb (Like.mk (User.id self) message_id) l))
              (likes (db s1)) /\
     users (db s2) = users (db s1) /\
     messages (db s2) = messages (db s1) /\
     follows (db s2) = follows (db s1) /\
     users_id_seq (db s2) = users_id_seq (db s1) /\
     messages_id_seq (db s2) = messages_id_seq (db s1)).
Proof.
  intros H. split.
  - eexists. split; [apply (unfollow_flushed _ _ _ _ H)|]. simpl.
    split; [intros f; apply Follow_filter_out_In | repeat split].
  - eexists. split; [apply (unlike_flushed _ _ _ _ H)|]. simpl.
    split; [intros l; apply Like_filter_out_In | repeat split].
Qed.

Lemma unfollow_unlike_delete_only_addressed_edge_witness :
  flush session1 = Ok (tt, session1) /\
  (exists s2,
     unfollow bo ana session1 = Ok (tt, s2) /\
     follows (db s2) = [Follow.mk 2 3] /\
     users (db s2) = [ana; bo; cy] /\
     messages (db s2) = [hello_world] /\
     likes (db s2) = [Like.mk 2 1; Like.mk 3 1]) /\
  (exists s2,
     unlike bo 1 session1 = Ok (tt, s2) /\
     likes (db s2) = [Like.mk 3 1] /\
     users (db s2) = [ana; bo; cy] /\
     messages (db s2) = [hello_world] /\
     follows (db s2) = [Follow.mk 1 2; Follow.mk 2 3]).
Proof.
  destruct (unfollow_unlike_delete_only_addressed_edge
              session1 session1 bo ana 1 eq_refl)
    as [(s2 & Hu & _ & Hf & Hus & Hms & Hls & _)
        (s3 & Hl & _ & Hk & Hus' & Hms' & Hfs' & _)].
  split; [reflexivity|]. split.
  - exists s2. rewrite Hf, Hus, Hms, Hls. repeat split. exact Hu.
  - exists s3. rewrite Hk, Hus', Hms', Hfs'. repeat split. exact Hl.
Defined.

(** ** Matching likes *)

Lemma found_likes_count (likes : list (option Message.t)) (message_id : Z) :
  Forall (fun liked_msg => liked_msg <> None) likes ->
  exists found,
    found_likes likes message_id = Ok found /\
    List.length found =
    List.length (filter (fun m => liked_msg_has_id m message_id) likes).
Proof.
  induction likes as [|[m|] l IH]; simpl; intros Hall.
  - exists []. auto.
  - inversion Hall as [|? ? _ Hl]; subst.
    destruct (IH Hl) as (found & -> & Hlen). simpl.
    destruct (Message.id m =? message_id); eexists; split;
      try reflexivity; simpl; congruence.
  - inversion Hall as [|? ? Hn _]; subst. contradiction.
Qed.

Lemma liked_msg_get_message (d : Database) (mid message_id : Z) :
  liked_msg_has_id (get_message d mid) message_id =
  message_exists d mid && (mid =? message_id).
Proof.
  unfold get_message, message_exists.
  induction (messages d) as [|a l IH]; simpl; [reflexivity|].
  destruct (Message.id a =? mid) eqn:E; simpl; [|exact IH].
  apply Z.eqb_eq in E. now rewrite E.
Qed.

(** ** Creating a message *)

Lemma flush_one_message (d : Database) (m : Message.transient) :
  flush (mkSession d [AMessage m]) =
  match insert_message m d with
  | Ok d1 => Ok (tt, mkSession d1 [])
  | Raise e => Raise e
  end.
Proof.
  unfold flush, flush_db; simpl. destruct (insert_message m d); reflexivity.
Qed.

Lemma length_repeat_char (n : nat) (c : ascii) :
  String.length (repeat_char n c) = n.
Proof. induction n; simpl; congruence. Qed.

(** C4, as stated, fails: a Message with 141 characters of text is created
    without any error and is staged in the session. *)
Lemma create_message_of_141_characters_is_staged :
  String.length text141 = 141%nat /\
  create_message text141 1 session0 =
  Ok (Message.init text141 1,
      mkSession db0 [AMessage (Message.init text141 1)]) /\
  ~ (exists e, create_message text141 1 session0 = Raise e).
Proof.
  split; [apply length_repeat_char|]. split; [reflexivity|].
  intros [e H]. discriminate H.
Qed.

(** C4, amended: creating a Message validates nothing and stages the entity
    whatever the length of its text; the limit of 140 characters is the
    column type, applied when the staged row is flushed: the commit raises a
    data error for a longer text (one whose characters past the 140th are
    not all spaces), and stores a text of at most 140 characters (so one of
    exactly 140) owned by a stored user. *)
Theorem create_message_length_checked_at_flush
  (s : Session) (text : string) (user_id : Z) :
  create_message text user_id s =
  Ok (Message.init text user_id,
      mkSession (db s) (new s ++ [AMessage (Message.init text user_id)])) /\
  (new s = [] -> (140 < String.length text)%nat ->
   all_spaces (substring 140 (String.length text - 140) text) = false ->
   (create_message text user_id ;; commit) s = Raise DataError) /\
  (new s = [] -> consistent (db s) -> (String.length text <= 140)%nat ->
   user_exists (db s) user_id = true ->
   (create_message text user_id ;; commit) s =
   Ok (tt, mkSession
             (set_messages (db s)
                (messages (db s) ++
                 [Message.mk (messages_id_seq (db s)) text
                             (current_timestamp (db s)) user_id])
                (messages_id_seq (db s) + 1))
             [])).
Proof.
  assert (Hc : create_message text user_id s =
               Ok (Message.init text user_id,
                   mkSession (db s)
                     (new s ++ [AMessage (Message.init text user_id)])))
    by reflexivity.
  split; [exact Hc|]. split.
  - intros Hnew Hlen Hsp. rewrite (bind_ok _ _ _ _ _ Hc), Hnew. simpl app.
    unfold commit. rewrite flush_one_message. unfold insert_message.
    cbn [Message.t_text]. now rewrite (varchar_refuses _ _ Hlen Hsp).
  - intros Hnew C Hlen Hu. rewrite (bind_ok _ _ _ _ _ Hc), Hnew. simpl app.
    unfold commit. rewrite flush_one_message. unfold insert_message.
    cbn [Message.t_text Message.t_user_id].
    rewrite (varchar_fits _ _ Hlen). cbn [rbind]. rewrite Hu. simpl.
    assert (E : message_exists (db s) (messages_id_seq (db s)) = false).
    { unfold message_exists. apply existsb_false_forall. intros m Hm.
      apply Z.eqb_neq. pose proof (messages_id_below_seq _ C m Hm). lia. }
    now rewrite E.
Qed.

Lemma create_message_length_checked_at_flush_witness :
  new session0 = [] /\ consistent (db session0) /\
  String.length text140 = 140%nat /\ String.length text141 = 141%nat /\
  (create_message text141 1 ;; commit) session0 = Raise DataError /\
  (create_message text140 1 ;; commit) session0 =
  Ok (tt, mkSession (set_messages db0
                       [hello_world; Message.mk 2 text140 0 1] 3) []).
Proof.
  destruct (create_message_length_checked_at_flush session0 text141 1)
    as (_ & Hlong & _).
  destruct (create_message_length_checked_at_flush session0 text140 1)
    as (_ & _ & Hfit).
  split; [reflexivity|]. split; [exact consistent_db0|].
  split; [apply length_repeat_char|]. split; [apply length_repeat_char|].
  split.
  - apply Hlong; [reflexivity | | reflexivity].
    unfold text141. rewrite length_repeat_char. lia.
  - apply Hfit; [reflexivity | exact consistent_db0 | | reflexivity].
    unfold text140. rewrite length_repeat_char. lia.
Defined.

(** ** Deleting a user *)

Lemma NoDup_map_filter {A K : Type} (key : A -> K) (p : A -> bool)
  (l : list A) :
  NoDup (map key l) -> NoDup (map key (filter p l)).
Proof.
  induction l as [|a l IH]; simpl; intros H; [constructor|].
  inversion H as [|? ? Ha Hl]; subst.
  destruct (p a); simpl; [|now apply IH].
  constructor; [|now apply IH].
  intros Hin. apply Ha. apply in_map_iff in Hin.
  destruct Hin as (x & E & Hx). apply filter_In in Hx.
  rewrite <- E. apply in_map. tauto.
Qed.

Lemma delete_user_flushed (s s1 : Session) (user_id : Z) :
  flush s = Ok (tt, s1) ->
  delete_user user_id s =
  Ok (tt,
      mkSession
        (mkDatabase
           (filter (fun u => negb (User.id u =? user_id)) (users (db s1)))
           (filter (fun m => negb (Message.user_id m =? user_id))
                   (messages (db s1)))
           (filter (fun f =>
                      negb ((Follow.user_being_followed_id f =? user_id) ||
                            (Follow.user_following_id f =? user_id)))
                   (follows (db s1)))
           (filter (fun l =>
                      negb ((Like.user_id l =? user_id) ||
                            existsb (Z.eqb (Like.message_id l))
                              (map Message.id
                                 (filter (fun m => Message.user_id m =? user_id)
                                         (messages (db s1))))))
                   (likes (db s1)))
           (users_id_seq (db s1)) (messages_id_seq (db s1))
           (current_timestamp (db s1)))
        []).
Proof.
  intros H. unfold delete_user, bind, autoflush, get_db, put_db.
  rewrite H. simpl. rewrite (flush_leaves_clean _ _ H). reflexivity.
Qed.

Lemma owned_message_id (ms : list Message.t) (user_id mid : Z) :
  existsb (Z.eqb mid)
          (map Message.id (filter (fun m => Message.user_id m =? user_id) ms))
  = true <->
  exists m, In m ms /\ Message.user_id m = user_id /\ Message.id m = mid.
Proof.
  rewrite existsb_exists. split.
  - intros (x & Hx & E). apply Z.eqb_eq in E. subst x.
    apply in_map_iff in Hx. destruct Hx as (m & Hid & Hm).
    apply filter_In in Hm. destruct Hm as [Hm Hu]. apply Z.eqb_eq in Hu.
    exists m. auto.
  - intros (m & Hm & Hu & Hid). exists mid. split; [|apply Z.eqb_refl].
    apply in_map_iff. exists m. split; [assumption|].
    apply filter_In. split; [assumption | now apply Z.eqb_eq].
Qed.

Lemma user_survives (us : list User.t) (user_id uid : Z) :
  existsb (fun u => User.id u =? uid) us = true -> uid <> user_id ->
  existsb (fun u => User.id u =? uid)
          (filter (fun u => negb (User.id u =? user_id)) us) = true.
Proof.
  rewrite !existsb_exists. intros (u & Hu & E) Hne. exists u.
  split; [|assumption]. apply filter_In. split; [assumption|].
  apply Z.eqb_eq in E. apply negb_true_iff, Z.eqb_neq. congruence.
Qed.

(** The DELETE statement on [users] removes B's row, every Follow row with B
    on either side, every Message B owns and every Like row of B, together
    with the Like rows on B's messages; every other row stays; and a
    database that was consistent has no dangling reference afterwards. *)
Theorem delete_user_cascades (s s1 : Session) (B : Z) :
  flush s = Ok (tt, s1) ->
  exists s2,
    delete_user B s = Ok (tt, s2) /\
    (forall u, In u (users (db s2)) <->
       In u (users (db s1)) /\ User.id u <> B) /\
    (forall m, In m (messages (db s2)) <->
       In m (messages (db s1)) /\ Message.user_id m <> B) /\
    (forall f, In f (follows (db s2)) <->
       In f (follows (db s1)) /\
       Follow.user_being_followed_id f <> B /\
       Follow.user_following_id f <> B) /\
    (forall l, In l (likes (db s2)) <->
       In l (likes (db s1)) /\ Like.user_id l <> B /\
       ~ (exists m, In m (messages (db s1)) /\ Message.user_id m = B /\
                    Message.id m = Like.message_id l)) /\
    (consistent (db s1) -> consistent (db s2)).
Proof.
  intros H. eexists. split; [apply (delete_user_flushed _ _ _ H)|]. simpl.
  assert (Hu : forall u, In u (filter (fun u => negb (User.id u =? B))
                                      (users (db s1))) <->
                         In u (users (db s1)) /\ User.id u <> B).
  { intros u. now rewrite filter_In, negb_true_iff, Z.eqb_neq. }
  assert (Hm : forall m, In m (filter (fun m => negb (Message.user_id m =? B))
                                      (messages (db s1))) <->
                         In m (messages (db s1)) /\ Message.user_id m <> B).
  { intros m. now rewrite filter_In, negb_true_iff, Z.eqb_neq. }
  assert (Hf : forall f,
             In f (filter (fun f =>
                     negb ((Follow.user_being_followed_id f =? B) ||
                           (Follow.user_following_id f =? B)))
                     (follows (db s1))) <->
             In f (follows (db s1)) /\
             Follow.user_being_followed_id f <> B /\
             Follow.user_following_id f <> B).
  { intros f.
    now rewrite filter_In, negb_true_iff, orb_false_iff, !Z.eqb_neq. }
  assert (Hl : forall l,
             In l (filter (fun l =>
                     negb ((Like.user_id l =? B) ||
                           existsb (Z.eqb (Like.message_id l))
                             (map Message.id
                                (filter (fun m => Message.user_id m =? B)
                                        (messages (db s1))))))
                     (likes (db s1))) <->
             In l (likes (db s1)) /\ Like.user_id l <> B /\
             ~ (exists m, In m (messages (db s1)) /\ Message.user_id m = B /\
                          Message.id m = Like.message_id l)).
  { intros l.
    rewrite filter_In, negb_true_iff, orb_false_iff, Z.eqb_neq.
    rewrite <- owned_message_id, not_true_iff_false. reflexivity. }
  split; [exact Hu|]. split; [exact Hm|]. split; [exact Hf|].
  split; [exact Hl|].
  intros C. destruct C. constructor; simpl.
  - intros u Hin. apply Hu in Hin. now apply users_id_below_seq0.
  - now apply NoDup_map_filter.
  - now apply NoDup_map_filter.
  - now apply NoDup_map_filter.
  - intros m Hin. apply Hm in Hin. now apply messages_id_below_seq0.
  - now apply NoDup_map_filter.
  - intros m Hin. apply Hm in Hin. now apply messages_text_fits0.
  - intros m Hin. apply Hm in Hin. destruct Hin as [Hin Hne].
    apply user_survives; [apply (messages_user_fk0 m Hin) | exact Hne].
  - now apply NoDup_filter.
  - intros f Hin. apply Hf in Hin. destruct Hin as (Hin & H1 & H2).
    destruct (follows_fk0 f Hin).
    split; apply user_survives; assumption.
  - now apply NoDup_filter.
  - intros l Hin. apply Hl in Hin. destruct Hin as (Hin & H1 & H2).
    destruct (likes_fk0 l Hin) as [Hx Hy].
    split; [apply user_survives; assumption|].
    unfold message_exists in *; simpl. rewrite existsb_exists in *.
    destruct Hy as (m & Hmin & E). exists m. split; [|exact E].
    apply Hm. split; [exact Hmin|]. intros Hown. apply H2.
    apply Z.eqb_eq in E. exists m. auto.
Qed.

Lemma delete_user_cascades_witness :
  flush session1 = Ok (tt, session1) /\
  (exists s2,
     delete_user 2 session1 = Ok (tt, s2) /\
     (forall u, In u (users (db s2)) <-> In u [ana; bo; cy] /\ User.id u <> 2) /\
     (forall f, In f (follows (db s2)) <->
        In f [Follow.mk 1 2; Follow.mk 2 3] /\
        Follow.user_being_followed_id f <> 2 /\
        Follow.user_following_id f <> 2) /\
     consistent (db s2)).
Proof.
  destruct (delete_user_cascades session1 session1 2 eq_refl)
    as (s2 & Hd & Hu & _ & Hf & _ & Hc).
  split; [reflexivity|]. exists s2.
  split; [exact Hd|]. split; [exact Hu|]. split; [exact Hf|].
  exact (Hc consistent_db1).
Defined.

Example delete_user_bo :
  delete_user 2 session1 =
  Ok (tt, mkSession (mkDatabase [ana; cy] [hello_world] [] [Like.mk 3 1]
                                4 2 0) []).
Proof. reflexivity. Qed.

Example delete_user_ana :
  delete_user 1 session1 =
  Ok (tt, mkSession (mkDatabase [bo; cy] [] [Follow.mk 2 3] [] 4 2 0) []).
Proof. reflexivity. Qed.

(** ** The deletes keep the database consistent *)

Lemma unfollow_consistent (s s1 s2 : Session) (self other_user : User.t) :
  flush s = Ok (tt, s1) -> consistent (db s1) ->
  unfollow self other_user s = Ok (tt, s2) -> consistent (db s2).
Proof.
  intros H C Hu. rewrite (unfollow_flushed _ _ _ _ H) in Hu.
  inversion Hu; subst s2; clear Hu. destruct C. constructor; simpl;
    try assumption.
  - now apply NoDup_filter.
  - intros f Hf. apply filter_In in Hf. now apply follows_fk0.
Qed.

Lemma unlike_consistent (s s1 s2 : Session) (self : User.t) (message_id : Z) :
  flush s = Ok (tt, s1) -> consistent (db s1) ->
  unlike self message_id s = Ok (tt, s2) -> consistent (db s2).
Proof.
  intros H C Hu. rewrite (unlike_flushed _ _ _ _ H) in Hu.
  inversion Hu; subst s2; clear Hu. destruct C. constructor; simpl;
    try assumption.
  - now apply NoDup_filter.
  - intros l Hl. apply filter_In in Hl. now apply likes_fk0.
Qed.

(** * Further properties of the models *)

(** ** Stored rows and their keys *)

Lemma find_key_stored {A : Type} (key : A -> Z) (l : list A) (u : A) :
  NoDup (map key l) -> In u l ->
  find (fun v => key v =? key u) l = Some u.
Proof.
  induction l as [|a l IH]; simpl; intros Hnd Hin; [contradiction|].
  inversion Hnd as [|? ? Ha Hl]; subst. destruct Hin as [->|Hin].
  - now rewrite Z.eqb_refl.
  - destruct (key a =? key u) eqn:E; [|now apply IH].
    apply Z.eqb_eq in E. exfalso. apply Ha. rewrite E. now apply in_map.
Qed.

Lemma get_user_stored (d : Database) (u : User.t) :
  consistent d -> In u (users d) -> get_user d (User.id u) = Some u.
Proof.
  intros C Hu. apply (find_key_stored User.id); [apply C | assumption].
Qed.

Lemma get_message_stored (d : Database) (m : Message.t) :
  consistent d -> In m (messages d) -> get_message d (Message.id m) = Some m.
Proof.
  intros C Hm. apply (find_key_stored Message.id); [apply C | assumption].
Qed.

Lemma Follow_filter_present (f : Follow.t) (l : list Follow.t) :
  NoDup l -> In f l -> filter (Follow.eqb f) l = [f].
Proof.
  intros Hnd Hin.
  apply (filter_key_unique _ _ (fun x : Follow.t => x)
           (fun x y => Follow.eqb y x)); [| now rewrite map_id | assumption].
  intros x y. rewrite Follow_eqb_eq. split; congruence.
Qed.

Lemma Like_filter_present (k : Like.t) (l : list Like.t) :
  NoDup l -> In k l -> filter (Like.eqb k) l = [k].
Proof.
  intros Hnd Hin.
  apply (filter_key_unique _ _ (fun x : Like.t => x)
           (fun x y => Like.eqb y x)); [| now rewrite map_id | assumption].
  intros x y. rewrite Like_eqb_eq. split; congruence.
Qed.

Lemma Follow_count_stored (f : Follow.t) (l : list Follow.t) :
  NoDup l ->
  ((List.length (filter (Follow.eqb f) l) =? 1)%nat = true <-> In f l).
Proof.
  intros Hnd. split.
  - intros H. destruct (filter (Follow.eqb f) l) as [|g r] eqn:E;
      [discriminate|].
    assert (Hg : In g (filter (Follow.eqb f) l)) by (rewrite E; now left).
    apply filter_In in Hg. destruct Hg as [Hg Heq].
    apply Follow_eqb_eq in Heq. now subst.
  - intros Hin. now rewrite (Follow_filter_present _ _ Hnd Hin).
Qed.

Lemma Like_count_stored (k : Like.t) (l : list Like.t) :
  NoDup l ->
  ((List.length (filter (Like.eqb k) l) =? 1)%nat = true <-> In k l).
Proof.
  intros Hnd. split.
  - intros H. destruct (filter (Like.eqb k) l) as [|g r] eqn:E;
      [discriminate|].
    assert (Hg : In g (filter (Like.eqb k) l)) by (rewrite E; now left).
    apply filter_In in Hg. destruct Hg as [Hg Heq].
    apply Like_eqb_eq in Heq. now subst.
  - intros Hin. now rewrite (Like_filter_present _ _ Hnd Hin).
Qed.

(** ** Is the username or the email taken? *)

Lemma truthy_first_filter {A B : Type} (p : A -> bool) (g : A -> B)
  (l : list A) :
  truthy (first (map g (filter p l))) = existsb p l.
Proof.
  induction l as [|a l IH]; simpl; [reflexivity|].
  destruct (p a); simpl; [reflexivity | exact IH].
Qed.

Lemma string_key_taken {A : Type} (key : A -> string) (l : list A)
  (k : string) :
  existsb (fun v => String.eqb (key v) k) l = true <->
  exists v, In v l /\ key v = k.
Proof.
  rewrite existsb_exists. split; intros (v & Hv & E); exists v;
    (split; [assumption|]); now apply String.eqb_eq.
Qed.

Section Taken.

Context {bcrypt : Bcrypt}.

(** X1: [is_username_taken] answers true exactly when a stored user (one
    staged earlier in the unit of work included, since the query flushes)
    has that username, and [is_email_taken] exactly when one has that email;
    neither changes what the flush left. *)
Theorem taken_checks_iff_stored (s s1 : Session) (username email : string) :
  flush s = Ok (tt, s1) ->
  (exists b, is_username_taken username s = Ok (b, s1) /\
     (b = true <->
      exists v, In v (users (db s1)) /\ User.username v = username)) /\
  (exists b, is_email_taken email s = Ok (b, s1) /\
     (b = true <->
      exists v, In v (users (db s1)) /\ User.email v = email)).
Proof.
  intros H. split.
  - eexists. split.
    + unfold is_username_taken, bind, autoflush, get_db, ret. rewrite H.
      rewrite truthy_first_filter. reflexivity.
    + apply (string_key_taken User.username).
  - eexists. split.
    + unfold is_email_taken, bind, autoflush, get_db, ret. rewrite H.
      rewrite truthy_first_filter. reflexivity.
    + apply (string_key_taken User.email).
Qed.

End Taken.

Lemma taken_checks_iff_stored_witness :
  flush session0 = Ok (tt, session0) /\
  is_username_taken "ana" session0 = Ok (true, session0) /\
  is_username_taken "zed" session0 = Ok (false, session0) /\
  is_email_taken "bo@x.com" session0 = Ok (true, session0).
Proof.
  destruct (taken_checks_iff_stored session0 session0 "ana" "bo@x.com"
              eq_refl) as ((b1 & H1 & _) & (b2 & H2 & _)).
  destruct (taken_checks_iff_stored session0 session0 "zed" "bo@x.com"
              eq_refl) as ((b3 & H3 & _) & _).
  split; [reflexivity|].
  assert (E1 : b1 = true) by (vm_compute in H1; congruence).
  assert (E2 : b2 = true) by (vm_compute in H2; congruence).
  assert (E3 : b3 = false) by (vm_compute in H3; congruence).
  subst. repeat split; assumption.
Defined.

(** ** Signup, committed *)

Lemma user_id_seq_fresh (d : Database) :
  consistent d -> user_exists d (users_id_seq d) = false.
Proof.
  intros C. unfold user_exists. apply existsb_false_forall. intros v Hv.
  apply Z.eqb_neq. pose proof (users_id_below_seq _ C v Hv). lia.
Qed.

Section SignupCommitted.

Context {bcrypt : Bcrypt}.

Lemma signup_clean (s : Session) (salt username email password h : string)
  (image_url : option string) :
  new s = [] -> generate_password_hash salt password = Ok h ->
  signup salt username email password image_url s =
  Ok (User.init username email h
        (match image_url with Some url => url | None => DEFAULT_IMAGE_URL end),
      mkSession (db s)
        [AUser (User.init username email h
                  (match image_url with
                   | Some url => url
                   | None => DEFAULT_IMAGE_URL
                   end))]).
Proof.
  intros Hnew Hh. unfold signup, bind, lift, session_add, ret.
  rewrite Hh. simpl. now rewrite Hnew.
Qed.

(** X2: a valid signup, committed, adds exactly one row to [users]: its id
    is the next value of the identity sequence, its password the digest, its
    image url the argument or [DEFAULT_IMAGE_URL], its header image, bio and
    location the column defaults; the rows already stored and the other
    tables are untouched, and both taken-checks now answer true. *)
Theorem signup_commit_stores_one_row
  (s : Session) (salt username email password h : string)
  (image_url : option string) :
  BcryptSpec bcrypt ->
  consistent (db s) -> new s = [] ->
  (String.length username <= 30)%nat ->
  (String.length email <= 50)%nat ->
  (String.length (match image_url with
                  | Some url => url
                  | None => DEFAULT_IMAGE_URL
                  end) <= 255)%nat ->
  (forall v, In v (users (db s)) ->
     User.username v <> username /\ User.email v <> email) ->
  generate_password_hash salt password = Ok h ->
  let row :=
    User.mk (users_id_seq (db s)) email username
            (match image_url with Some url => url | None => DEFAULT_IMAGE_URL end)
            DEFAULT_HEADER_IMAGE_URL EmptyString EmptyString h in
  let s1 :=
    mkSession (set_users (db s) (users (db s) ++ [row])
                         (users_id_seq (db s) + 1)) [] in
  (signup salt username email password image_url ;; commit) s = Ok (tt, s1) /\
  is_username_taken username s1 = Ok (true, s1) /\
  is_email_taken email s1 = Ok (true, s1).
Proof.
  intros B C Hnew Hn He Hi Hfree Hh row s1.
  assert (Hins : insert_user
            (User.init username email h
               (match image_url with
                | Some url => url
                | None => DEFAULT_IMAGE_URL
                end)) (db s)
          = Ok (db s1)).
  { apply insert_user_accepts; simpl; try assumption.
    rewrite (digest_length _ B _ _ _ Hh). lia. }
  split; [|split].
  - rewrite (bind_ok _ _ _ _ _ (signup_clean s _ _ _ _ _ image_url Hnew Hh)).
    unfold commit. now rewrite (flush_one_user _ _ _ Hins).
  - unfold is_username_taken, bind, autoflush, get_db, ret, s1.
    rewrite (flush_empty _). rewrite truthy_first_filter. simpl.
    rewrite existsb_app. simpl. now rewrite String.eqb_refl, orb_true_r.
  - unfold is_email_taken, bind, autoflush, get_db, ret, s1.
    rewrite (flush_empty _). rewrite truthy_first_filter. simpl.
    rewrite existsb_app. simpl. now rewrite String.eqb_refl, orb_true_r.
Qed.

(** X3: [signup] does not look whether the username or the email is taken:
    it stages the user all the same, and the commit refuses the row with the
    violation of a unique column, [users.username] when only the username is
    taken and [users.email] when only the email is. *)
Theorem signup_taken_fails_at_commit
  (s : Session) (salt username email password h : string)
  (image_url : option string) :
  BcryptSpec bcrypt ->
  consistent (db s) -> new s = [] ->
  (String.length username <= 30)%nat ->
  (String.length email <= 50)%nat ->
  (String.length (match image_url with
                  | Some url => url
                  | None => DEFAULT_IMAGE_URL
                  end) <= 255)%nat ->
  generate_password_hash salt password = Ok h ->
  (exists v, In v (users (db s)) /\
             (User.username v = username \/ User.email v = email)) ->
  (exists t s', signup salt username email password image_url s
                = Ok (t, s') /\ db s' = db s) /\
  (exists k,
     (signup salt username email password image_url ;; commit) s
     = Raise (IntegrityError (UniqueViolation k)) /\
     (k = users_username \/ k = users_email) /\
     ((forall v, In v (users (db s)) -> User.email v <> email) ->
      k = users_username) /\
     ((forall v, In v (users (db s)) -> User.username v <> username) ->
      k = users_email)).
Proof.
  intros B C Hnew Hn He Hi Hh (v & Hv & Htaken).
  pose proof (signup_clean s _ username email _ _ image_url Hnew Hh) as Hs.
  split; [eauto|].
  rewrite (bind_ok _ _ _ _ _ Hs). unfold commit, flush, flush_db. simpl.
  unfold insert_user. cbn [User.t_email User.t_username User.t_image_url
                           User.t_password].
  rewrite !varchar_fits;
    try assumption; [|rewrite (digest_length _ B _ _ _ Hh); lia].
  cbn [rbind]. rewrite (user_id_seq_fresh _ C).
  destruct (existsb (fun v0 => String.eqb (User.email v0) email)
                    (users (db s))) eqn:Ee.
  - exists users_email. simpl. split; [reflexivity|]. split; [now right|].
    split; [|reflexivity]. intros Hfree.
    apply (string_key_taken User.email) in Ee. destruct Ee as (w & Hw & E).
    now apply Hfree in Hw.
  - assert (Eu : existsb (fun v0 => String.eqb (User.username v0) username)
                         (users (db s)) = true).
    { apply (string_key_taken User.username). exists v. split; [exact Hv|].
      destruct Htaken as [E|E]; [exact E|].
      pose proof (proj1 (existsb_false_forall _ _) Ee v Hv) as Hne.
      simpl in Hne. rewrite E, String.eqb_refl in Hne. discriminate. }
    rewrite Eu. exists users_username. simpl. split; [reflexivity|].
    split; [now left|]. split; [reflexivity|]. intros Hfree.
    apply (string_key_taken User.username) in Eu.
    destruct Eu as (w & Hw & E). now apply Hfree in Hw.
Qed.

End SignupCommitted.

Lemma signup_commit_stores_one_row_witness :
  (signup (bcrypt := toy_bcrypt) "salt" "cy" "cy@x.com" "secret" None ;;
   commit) session0
  = Ok (tt, mkSession (set_users db0 [ana; bo; cy] 4) []) /\
  is_username_taken "cy" (mkSession (set_users db0 [ana; bo; cy] 4) [])
  = Ok (true, mkSession (set_users db0 [ana; bo; cy] 4) []).
Proof.
  destruct (signup_commit_stores_one_row (bcrypt := toy_bcrypt) session0
              "salt" "cy" "cy@x.com" "secret" toy_digest_a None) as (H1 & H2 & _).
  - exact toy_bcrypt_spec.
  - exact consistent_db0.
  - reflexivity.
  - simpl. lia.
  - simpl. lia.
  - simpl. lia.
  - simpl. intros v [<-|[<-|[]]]; split; discriminate.
  - reflexivity.
  - split; [exact H1 | exact H2].
Defined.

Lemma signup_taken_fails_at_commit_witness :
  (exists t s', signup (bcrypt := toy_bcrypt) "salt" "ana" "new@x.com"
                  "secret" None session0 = Ok (t, s') /\
                db s' = db session0) /\
  (signup (bcrypt := toy_bcrypt) "salt" "ana" "new@x.com" "secret" None ;;
   commit) session0
  = Raise (IntegrityError (UniqueViolation users_username)).
Proof.
  destruct (signup_taken_fails_at_commit (bcrypt := toy_bcrypt) session0
              "salt" "ana" "new@x.com" "secret" toy_digest_a None)
    as (H1 & k & Hk & _ & Hu & _).
  - exact toy_bcrypt_spec.
  - exact consistent_db0.
  - reflexivity.
  - simpl. lia.
  - simpl. lia.
  - simpl. lia.
  - reflexivity.
  - exists ana. split; [simpl; auto | now left].
  - split; [exact H1|]. rewrite Hk. rewrite Hu; [reflexivity|].
    simpl. intros v [<-|[<-|[]]]; discriminate.
Defined.

(** ** What a commit stores *)

Lemma extends_refl (d : Database) : extends d d.
Proof. repeat split; apply incl_refl. Qed.

Lemma extends_trans (d1 d2 d3 : Database) :
  extends d1 d2 -> extends d2 d3 -> extends d1 d3.
Proof.
  intros (A1 & A2 & A3 & A4) (B1 & B2 & B3 & B4).
  repeat split; eapply incl_tran; eassumption.
Qed.

Lemma insert_user_extends (u : User.transient) (d d' : Database) :
  insert_user u d = Ok d' -> extends d d'.
Proof.
  intros H. unfold insert_user in H. split_binds. split_ifs.
  inversion H; subst. repeat split; simpl; try apply incl_refl.
  apply incl_appl, incl_refl.
Qed.

Lemma insert_message_extends (m : Message.transient) (d d' : Database) :
  insert_message m d = Ok d' -> extends d d'.
Proof.
  intros H. unfold insert_message in H. split_binds. split_ifs.
  inversion H; subst. repeat split; simpl; try apply incl_refl.
  apply incl_appl, incl_refl.
Qed.

Lemma insert_follow_extends (f : Follow.t) (d d' : Database) :
  insert_follow f d = Ok d' -> extends d d' /\ In f (follows d').
Proof.
  intros H. unfold insert_follow in H. split_ifs.
  inversion H; subst. split.
  - repeat split; simpl; try apply incl_refl. apply incl_appl, incl_refl.
  - simpl. apply in_app_iff. right. now left.
Qed.

Lemma insert_like_extends (l : Like.t) (d d' : Database) :
  insert_like l d = Ok d' -> extends d d' /\ In l (likes d').
Proof.
  intros H. unfold insert_like in H. split_ifs.
  inversion H; subst. split.
  - repeat split; simpl; try apply incl_refl. apply incl_appl, incl_refl.
  - simpl. apply in_app_iff. right. now left.
Qed.

Lemma insert_all_extends {A : Type}
  (ins : A -> Database -> Result Database) (l : list A) :
  (forall x d d', ins x d = Ok d' -> extends d d') ->
  forall d d', insert_all ins l d = Ok d' -> extends d d'.
Proof.
  intros Hins. induction l as [|x l IH]; simpl; intros d d' H.
  - inversion H; subst. apply extends_refl.
  - destruct (ins x d) as [d1|e] eqn:E; simpl in H; [|discriminate].
    eapply extends_trans; [eapply Hins, E | eapply IH, H].
Qed.

Lemma insert_all_follows_stored (l : list Follow.t) :
  forall d d', insert_all insert_follow l d = Ok d' ->
  forall f, In f l -> In f (follows d').
Proof.
  induction l as [|x l IH]; simpl; intros d d' H f Hf; [contradiction|].
  destruct (insert_follow x d) as [d1|e] eqn:E; simpl in H; [|discriminate].
  destruct Hf as [->|Hf]; [|eapply IH; eassumption].
  destruct (insert_follow_extends _ _ _ E) as [_ Hin].
  pose proof (insert_all_extends insert_follow l
                (fun x d d' H => proj1 (insert_follow_extends x d d' H))
                _ _ H) as (_ & _ & Hincl & _).
  now apply Hincl.
Qed.

Lemma insert_all_likes_stored (l : list Like.t) :
  forall d d', insert_all insert_like l d = Ok d' ->
  forall k, In k l -> In k (likes d').
Proof.
  induction l as [|x l IH]; simpl; intros d d' H k Hk; [contradiction|].
  destruct (insert_like x d) as [d1|e] eqn:E; simpl in H; [|discriminate].
  destruct Hk as [->|Hk]; [|eapply IH; eassumption].
  destruct (insert_like_extends _ _ _ E) as [_ Hin].
  pose proof (insert_all_extends insert_like l
                (fun x d d' H => proj1 (insert_like_extends x d d' H))
                _ _ H) as (_ & _ & _ & Hincl).
  now apply Hincl.
Qed.

Lemma in_new_follows (f : Follow.t) (l : list Instance) :
  In (AFollow f) l -> In f (new_follows l).
Proof.
  intros H. unfold new_follows. apply in_flat_map.
  exists (AFollow f). split; [assumption | now left].
Qed.

Lemma in_new_likes (k : Like.t) (l : list Instance) :
  In (ALike k) l -> In k (new_likes l).
Proof.
  intros H. unfold new_likes. apply in_flat_map.
  exists (ALike k). split; [assumption | now left].
Qed.

(** X4: a commit that succeeds keeps the constraints of the schema (unique
    ids, usernames, emails and edges, references that resolve, texts that
    fit), loses no stored row, stores every staged Follow and Like row, and
    leaves nothing pending. *)
Theorem commit_keeps_constraints_and_rows (s s1 : Session) :
  consistent (db s) -> commit s = Ok (tt, s1) ->
  consistent (db s1) /\ new s1 = [] /\ extends (db s) (db s1) /\
  (forall f, In (AFollow f) (new s) -> In f (follows (db s1))) /\
  (forall l, In (ALike l) (new s) -> In l (likes (db s1))).
Proof.
  intros C H. unfold commit in H.
  split; [eapply flush_consistent; eassumption|].
  split; [eapply flush_leaves_clean; eassumption|].
  unfold flush in H.
  destruct (flush_db (new s) (db s)) as [d|] eqn:E; [|discriminate].
  inversion H; subst s1; clear H. simpl. unfold flush_db in E.
  destruct (insert_all insert_user _ (db s)) as [d1|] eqn:E1; simpl in E;
    [|discriminate].
  destruct (insert_all insert_message _ d1) as [d2|] eqn:E2; simpl in E;
    [|discriminate].
  destruct (insert_all insert_follow _ d2) as [d3|] eqn:E3; simpl in E;
    [|discriminate].
  pose proof (insert_all_extends _ _ insert_user_extends _ _ E1) as X1.
  pose proof (insert_all_extends _ _ insert_message_extends _ _ E2) as X2.
  pose proof (insert_all_extends insert_follow _
                (fun x d d' H => proj1 (insert_follow_extends x d d' H))
                _ _ E3) as X3.
  pose proof (insert_all_extends insert_like _
                (fun x d d' H => proj1 (insert_like_extends x d d' H))
                _ _ E) as X4.
  split; [|split].
  - eapply extends_trans; [exact X1|]. eapply extends_trans; [exact X2|].
    eapply extends_trans; [exact X3 | exact X4].
  - intros f Hf. destruct X4 as (_ & _ & Hincl & _). apply Hincl.
    eapply insert_all_follows_stored; [exact E3 | now apply in_new_follows].
  - intros l Hl.
    eapply insert_all_likes_stored; [exact E | now apply in_new_likes].
Qed.

Lemma commit_keeps_constraints_and_rows_witness :
  consistent (db (mkSession db0 [AFollow (Follow.mk 1 2); ALike (Like.mk 2 1)]))
  /\
  exists s1,
    commit (mkSession db0 [AFollow (Follow.mk 1 2); ALike (Like.mk 2 1)])
    = Ok (tt, s1) /\
    consistent (db s1) /\ In (Follow.mk 1 2) (follows (db s1)) /\
    In (Like.mk 2 1) (likes (db s1)).
Proof.
  split; [exact consistent_db0|]. eexists. split; [reflexivity|].
  destruct (commit_keeps_constraints_and_rows
              (mkSession db0 [AFollow (Follow.mk 1 2); ALike (Like.mk 2 1)])
              _ consistent_db0 eq_refl) as (Hc & _ & _ & Hf & Hl).
  split; [exact Hc|]. split.
  - apply Hf. simpl. auto.
  - apply Hl. simpl. auto.
Defined.

(** ** Rows found by their key *)

Lemma get_user_Some (d : Database) (k : Z) (u : User.t) :
  get_user d k = Some u -> In u (users d) /\ User.id u = k.
Proof.
  unfold get_user. intros H. apply find_some in H.
  destruct H as [H E]. apply Z.eqb_eq in E. auto.
Qed.

Lemma get_message_Some (d : Database) (k : Z) (m : Message.t) :
  get_message d k = Some m -> In m (messages d) /\ Message.id m = k.
Proof.
  unfold get_message. intros H. apply find_some in H.
  destruct H as [H E]. apply Z.eqb_eq in E. auto.
Qed.

(** ** Edges to rows that are not there *)



(** ** How many rows a delete removes *)

(** X13: in a consistent database the DELETE behind [unfollow] removes one
    row when the edge is stored and none otherwise, never more; and so does
    the DELETE behind [unlike]. *)
Theorem delete_rowcount_is_zero_or_one
  (s s1 : Session) (followed following user_id message_id : Z) :
  consistent (db s) -> flush s = Ok (tt, s1) ->
  (exists n s2,
     delete_follow followed following s = Ok (n, s2) /\
     (n <= 1)%nat /\
     (n = 1%nat <-> In (Follow.mk followed following) (follows (db s1))) /\
     ~ In (Follow.mk followed following) (follows (db s2))) /\
  (exists n s2,
     delete_like message_id user_id s = Ok (n, s2) /\
     (n <= 1)%nat /\
     (n = 1%nat <-> In (Like.mk user_id message_id) (likes (db s1))) /\
     ~ In (Like.mk user_id message_id) (likes (db s2))).
Proof.
  intros C H. pose proof (flush_consistent _ _ C H) as C1. split.
  - eexists. eexists. split; [apply (delete_follow_flushed _ _ _ _ H)|].
    pose proof (Follow_count_stored (Follow.mk followed following) _
                  (follows_unique _ C1)) as Hc.
    rewrite Nat.eqb_eq in Hc. split; [|split; [exact Hc|]].
    + destruct (existsb (Follow.eqb (Follow.mk followed following))
                        (follows (db s1))) eqn:E.
      * apply existsb_exists in E. destruct E as (k & Hk & E).
        apply Follow_eqb_eq in E. subst k. apply Hc in Hk. lia.
      * apply Follow_absent in E.
        destruct (Follow_filter_absent _ _ E) as [-> _]. simpl. lia.
    + simpl. intros Hin. apply Follow_filter_out_In in Hin. simpl in Hin.
      tauto.
  - eexists. eexists. split; [apply (delete_like_flushed _ _ _ _ H)|].
    pose proof (Like_count_stored (Like.mk user_id message_id) _
                  (likes_unique _ C1)) as Hc.
    rewrite Nat.eqb_eq in Hc. split; [|split; [exact Hc|]].
    + destruct (existsb (Like.eqb (Like.mk user_id message_id))
                        (likes (db s1))) eqn:E.
      * apply existsb_exists in E. destruct E as (k & Hk & E).
        apply Like_eqb_eq in E. subst k. apply Hc in Hk. lia.
      * apply Like_absent in E.
        destruct (Like_filter_absent _ _ E) as [-> _]. simpl. lia.
    + simpl. intros Hin. apply Like_filter_out_In in Hin. simpl in Hin.
      tauto.
Qed.

Lemma delete_rowcount_is_zero_or_one_witness :
  consistent (db session1) /\ flush session1 = Ok (tt, session1) /\
  (exists s2, delete_follow 1 2 session1 = Ok (1%nat, s2)) /\
  (exists s2, delete_like 1 1 session1 = Ok (0%nat, s2)).
Proof.
  destruct (delete_rowcount_is_zero_or_one session1 session1 1 2 1 1
              consistent_db1 eq_refl)
    as ((n & s2 & Hd & _ & Hn & _) & (m & s3 & Hl & Hle & Hm & _)).
  split; [exact consistent_db1|]. split; [reflexivity|]. split.
  - exists s2. rewrite Hd. do 2 f_equal. apply Hn. simpl. auto.
  - exists s3. rewrite Hl. do 2 f_equal.
    destruct m as [|[|m]]; [reflexivity | | lia].
    exfalso. assert (Hin : In (Like.mk 1 1) (likes (db session1)))
      by now apply Hm.
    simpl in Hin. destruct Hin as [E|[E|[]]]; discriminate E.
Defined.

(** X14: [unfollow] and [unlike] keep the constraints of the schema: no
    other table refers to the rows they delete. *)
Theorem unfollow_unlike_keep_constraints
  (s s1 : Session) (self other_user : User.t) (message_id : Z) :
  consistent (db s) -> flush s = Ok (tt, s1) ->
  (exists s2, unfollow self other_user s = Ok (tt, s2) /\
              consistent (db s2) /\ new s2 = []) /\
  (exists s2, unlike self message_id s = Ok (tt, s2) /\
              consistent (db s2) /\ new s2 = []).
Proof.
  intros C H. pose proof (flush_consistent _ _ C H) as C1. split.
  - eexists. split; [apply (unfollow_flushed _ _ _ _ H)|].
    split; [|reflexivity].
    eapply unfollow_consistent;
      [exact H | exact C1 | apply (unfollow_flushed _ _ _ _ H)].
  - eexists. split; [apply (unlike_flushed _ _ _ _ H)|].
    split; [|reflexivity].
    eapply unlike_consistent;
      [exact H | exact C1 | apply (unlike_flushed _ _ _ _ H)].
Qed.

Lemma unfollow_unlike_keep_constraints_witness :
  consistent (db session1) /\ flush session1 = Ok (tt, session1) /\
  (exists s2, unfollow bo ana session1 = Ok (tt, s2) /\ consistent (db s2)) /\
  (exists s2, unlike bo 1 session1 = Ok (tt, s2) /\ consistent (db s2)).
Proof.
  destruct (unfollow_unlike_keep_constraints session1 session1 bo ana 1
              consistent_db1 eq_refl)
    as ((s2 & Hu & Hc & _) & (s3 & Hl & Hk & _)).
  split; [exact consistent_db1|]. split; [reflexivity|].
  split; [exists s2 | exists s3]; split; assumption.
Defined.

(** ** The same edge twice *)

Lemma like_twice_raises (s : Session) (A : User.t) (message_id : Z) :
  new s = [] ->
  exists e,
    (like A message_id ;; commit ;; like A message_id ;; commit) s = Raise e.
Proof.
  intros Hnew.
  rewrite (bind_ok _ _ _ _ _ (like_clean s A message_id Hnew)).
  unfold commit at 1.
  destruct (insert_like (Like.mk (User.id A) message_id) (db s))
    as [d1|e] eqn:E.
  - destruct (insert_like_extends _ _ _ E) as [_ Hin].
    assert (Hflush : flush (mkSession (db s)
              [ALike (Like.mk (User.id A) message_id)])
              = Ok (tt, mkSession d1 [])).
    { rewrite flush_one_like, E. reflexivity. }
    rewrite (bind_ok _ _ _ _ _ Hflush).
    rewrite (bind_ok _ _ _ _ _
               (like_clean (mkSession d1 []) A message_id eq_refl)).
    unfold commit. simpl db. rewrite flush_one_like.
    rewrite (insert_like_duplicate _ _ Hin). eauto.
  - exists e. apply bind_raise. rewrite flush_one_like, E. reflexivity.
Qed.

(** X15: the same edge never commits twice. Two [A.follow(B)], or two
    [user.like(message_id)], raise at a commit whatever the tables hold:
    staged together in one unit of work, or with a commit in between. *)
Theorem same_edge_twice_never_commits
  (s : Session) (A B : User.t) (message_id : Z) :
  new s = [] ->
  (exists e, (follow A B ;; follow A B ;; commit) s = Raise e) /\
  (exists e, (follow A B ;; commit ;; follow A B ;; commit) s = Raise e) /\
  (exists e, (like A message_id ;; like A message_id ;; commit) s = Raise e) /\
  (exists e, (like A message_id ;; commit ;; like A message_id ;; commit) s
             = Raise e).
Proof.
  intros Hnew. split; [|split; [|split]].
  - rewrite (bind_ok _ _ _ _ _ (follow_clean s A B Hnew)).
    unfold follow at 1, session_add, bind, commit, flush, flush_db. simpl.
    destruct (insert_follow (Follow.mk (User.id B) (User.id A)) (db s))
      as [d1|e] eqn:E; simpl; [|eauto].
    destruct (insert_follow_extends _ _ _ E) as [_ Hin].
    rewrite (insert_follow_duplicate _ _ Hin). simpl. eauto.
  - now apply follow_twice_raises.
  - rewrite (bind_ok _ _ _ _ _ (like_clean s A message_id Hnew)).
    unfold like at 1, session_add, bind, commit, flush, flush_db. simpl.
    destruct (insert_like (Like.mk (User.id A) message_id) (db s))
      as [d1|e] eqn:E; simpl; [|eauto].
    destruct (insert_like_extends _ _ _ E) as [_ Hin].
    rewrite (insert_like_duplicate _ _ Hin). simpl. eauto.
  - now apply like_twice_raises.
Qed.

Lemma same_edge_twice_never_commits_witness :
  new session0 = [] /\
  (follow bo ana ;; follow bo ana ;; commit) session0 =
  Raise (IntegrityError (UniqueViolation follows_pair)) /\
  (exists e, (like bo 1 ;; commit ;; like bo 1 ;; commit) session0 = Raise e).
Proof.
  destruct (same_edge_twice_never_commits session0 bo ana 1 eq_refl)
    as (_ & _ & _ & H).
  split; [reflexivity|]. split; [reflexivity | exact H].
Defined.

(** ** Both sides of a relationship *)

(** X16: in a consistent database the two sides of each relationship agree.
    Every message has its owner ([Message.user] is never [None]) and is
    among the owner's [User.messages]; for a stored user, the messages of
    [User.messages] are exactly the stored messages whose [Message.user] is
    that user. Every Like row has its user and its message, and is among the
    user's [liked_messages] and the message's [users_who_liked]. *)
Theorem relationships_agree (d : Database) :
  consistent d ->
  (forall m, In m (messages d) ->
     exists u, Message_user m d = Some u /\ In u (users d) /\
               In m (User_messages u d)) /\
  (forall u m, In u (users d) ->
     (In m (User_messages u d) <->
      In m (messages d) /\ Message_user m d = Some u)) /\
  (forall l, In l (likes d) ->
     exists u m,
       user_liking_the_message l d = Some u /\
       message_the_user_liked l d = Some m /\
       In l (liked_messages u d) /\ In l (users_who_liked m d)).
Proof.
  intros C. split; [|split].
  - intros m Hm.
    destruct (get_user_exists _ _ (messages_user_fk _ C m Hm))
      as (u & Hg & Hu & Hid).
    exists u. split; [exact Hg|]. split; [exact Hu|].
    apply filter_In. split; [exact Hm | now apply Z.eqb_eq].
  - intros u m Hu. unfold User_messages, Message_user.
    rewrite filter_In, Z.eqb_eq. split; intros [Hm H]; (split; [exact Hm|]).
    + rewrite H. now apply get_user_stored.
    + apply get_user_Some in H. symmetry. apply H.
  - intros l Hl. destruct (likes_fk _ C l Hl) as [H1 H2].
    destruct (get_user_exists _ _ H1) as (u & Hgu & _ & Hidu).
    destruct (get_message_exists _ _ H2) as (m & Hgm & _ & Hidm).
    exists u, m. split; [exact Hgu|]. split; [exact Hgm|].
    split; apply filter_In; (split; [exact Hl | now apply Z.eqb_eq]).
Qed.

Lemma relationships_agree_witness :
  consistent db1 /\
  Message_user hello_world db1 = Some ana /\
  (In hello_world (User_messages ana db1) <->
   In hello_world (messages db1) /\ Message_user hello_world db1 = Some ana).
Proof.
  destruct (relationships_agree db1 consistent_db1) as (_ & H & _).
  split; [exact consistent_db1|]. split; [reflexivity|].
  apply H. simpl. auto.
Defined.

(** ** A message, committed *)

(** X18: a message of at most 140 characters created for a stored user and
    committed gets the next id of the sequence and the server's timestamp,
    is listed in the owner's [User.messages] with [Message.user] the owner,
    and starts with no likes: [users_who_liked] is empty. *)
Theorem committed_message_is_owned_and_unliked
  (s : Session) (u : User.t) (text : string) :
  consistent (db s) -> new s = [] ->
  In u (users (db s)) -> (String.length text <= 140)%nat ->
  exists s1 m,
    (create_message text (User.id u) ;; commit) s = Ok (tt, s1) /\
    m = Message.mk (messages_id_seq (db s)) text (current_timestamp (db s))
                   (User.id u) /\
    messages (db s1) = messages (db s) ++ [m] /\
    In m (User_messages u (db s1)) /\
    Message_user m (db s1) = Some u /\
    users_who_liked m (db s1) = [] /\
    consistent (db s1).
Proof.
  intros C Hnew Hu Hlen.
  assert (Hex : user_exists (db s) (User.id u) = true).
  { apply user_exists_iff. now apply in_map. }
  assert (Hfresh : message_exists (db s) (messages_id_seq (db s)) = false).
  { unfold message_exists. apply existsb_false_forall. intros m Hm.
    apply Z.eqb_neq. pose proof (messages_id_below_seq _ C m Hm). lia. }
  set (m := Message.mk (messages_id_seq (db s)) text
                       (current_timestamp (db s)) (User.id u)).
  set (d1 := set_messages (db s) (messages (db s) ++ [m])
                          (messages_id_seq (db s) + 1)).
  assert (Hins : insert_message (Message.init text (User.id u)) (db s)
                 = Ok d1).
  { unfold insert_message. cbn [Message.t_text Message.t_user_id].
    rewrite (varchar_fits _ _ Hlen). cbn [rbind].
    now rewrite Hfresh, Hex. }
  assert (Hcommit : (create_message text (User.id u) ;; commit) s
                    = Ok (tt, mkSession d1 [])).
  { unfold create_message, bind, session_add, ret, commit. rewrite Hnew.
    simpl app. rewrite flush_one_message. now rewrite Hins. }
  exists (mkSession d1 []), m. split; [exact Hcommit|].
  split; [reflexivity|]. split; [reflexivity|]. split; [|split; [|split]].
  - apply filter_In. split; [|apply Z.eqb_refl].
    simpl. apply in_app_iff. right. now left.
  - unfold Message_user. simpl.
    change (get_user d1) with (get_user (db s)). now apply get_user_stored.
  - apply filter_none. intros l Hl. simpl in Hl. simpl.
    apply Z.eqb_neq. intros E.
    destruct (likes_fk _ C l Hl) as [_ H2]. rewrite E in H2. congruence.
  - apply (insert_message_consistent _ _ _ C Hins).
Qed.

Lemma committed_message_is_owned_and_unliked_witness :
  exists s1 m,
    (create_message "second" (User.id bo) ;; commit) session0 = Ok (tt, s1) /\
    m = Message.mk 2 "second" 0 2 /\
    messages (db s1) = [hello_world; m] /\
    In m (User_messages bo (db s1)) /\
    Message_user m (db s1) = Some bo /\
    users_who_liked m (db s1) = [] /\
    consistent (db s1).
Proof.
  apply (committed_message_is_owned_and_unliked session0 bo "second").
  - exact consistent_db0.
  - reflexivity.
  - simpl. auto.
  - simpl. lia.
Defined.

(** * What the session has loaded *)

(** ** One object per primary key *)

Section UniqueRows.

Variables (A : Type) (eqb : A -> A -> bool).
Hypothesis eqb_eq : forall x y, eqb x y = true <-> x = y.

Lemma unique_rows_In (l : list A) (x : A) :
  In x (unique_rows eqb l) <-> In x l.
Proof.
  induction l as [|a l IH]; simpl; [tauto|].
  rewrite filter_In, IH, negb_true_iff. split.
  - intros [H|[H _]]; auto.
  - intros [H|H]; [now left|].
    destruct (eqb a x) eqn:E; [left; now apply eqb_eq | right; auto].
Qed.

Lemma unique_rows_NoDup (l : list A) : NoDup (unique_rows eqb l).
Proof.
  induction l as [|a l IH]; simpl; constructor.
  - rewrite filter_In, negb_true_iff. intros [_ H].
    assert (eqb a a = true) by now apply eqb_eq. congruence.
  - now apply NoDup_filter.
Qed.

End UniqueRows.

Lemma user_eq_get_user (d : Database) (uid : Z) (o : User.t) :
  user_eq (get_user d uid) (OfSession o) =
  user_exists d uid && (uid =? User.id o).
Proof.
  unfold get_user, user_exists. induction (users d) as [|a l IH]; simpl;
    [reflexivity|].
  destruct (User.id a =? uid) eqn:E; simpl; [|exact IH].
  apply Z.eqb_eq in E. now rewrite E.
Qed.

Lemma count_one_iff_stored (f : Follow.t) (l : list Follow.t) (b : bool) :
  NoDup l ->
  (List.length (filter (fun g => b && Follow.eqb f g) l) =? 1)%nat
  = b && existsb (Follow.eqb f) l.
Proof.
  intros Hnd. destruct b; simpl.
  - destruct (existsb (Follow.eqb f) l) eqn:E.
    + apply existsb_exists in E. destruct E as (g & Hg & E).
      apply Follow_eqb_eq in E. subst g.
      apply (Follow_count_stored f l Hnd). exact Hg.
    + apply Follow_absent in E.
      destruct (Follow_filter_absent _ _ E) as [H _].
      replace (filter (fun g => Follow.eqb f g) l) with
        (filter (Follow.eqb f) l) by reflexivity.
      now rewrite H.
  - now rewrite filter_none.
Qed.

(** What a load of [following] answers to [is_following]. *)
Lemma loaded_following_answer (d : Database) (self other : User.t) :
  (List.length
     (filter (fun user => user_eq user (OfSession other))
        (map (fun f => following_user f d)
             (unique_rows Follow.eqb (following_users self d)))) =? 1)%nat
  = user_exists d (User.id other) &&
    existsb (Follow.eqb (Follow.mk (User.id other) (User.id self))) (follows d).
Proof.
  rewrite length_filter_map.
  set (f0 := Follow.mk (User.id other) (User.id self)).
  set (L := unique_rows Follow.eqb (following_users self d)).
  assert (HL : forall g, In g L <->
                 In g (follows d) /\ Follow.user_following_id g = User.id self).
  { intros g. unfold L. rewrite (unique_rows_In _ _ Follow_eqb_eq).
    unfold following_users. now rewrite filter_In, Z.eqb_eq. }
  rewrite (filter_ext_in _
             (fun g => user_exists d (User.id other) && Follow.eqb f0 g)).
  - rewrite count_one_iff_stored
      by apply (unique_rows_NoDup _ _ Follow_eqb_eq).
    f_equal. apply eq_true_iff_eq. rewrite !existsb_exists.
    split; intros (g & Hg & E); exists g; (split; [|exact E]).
    + now apply HL.
    + apply HL. split; [exact Hg|]. apply Follow_eqb_eq in E. now subst g.
  - intros [a b] Hg. apply HL in Hg. destruct Hg as [_ Hb]. simpl in Hb.
    unfold following_user, Follow.eqb, f0. simpl.
    rewrite user_eq_get_user. subst b. rewrite Z.eqb_refl, andb_true_r.
    destruct (a =? User.id other) eqn:E.
    + apply Z.eqb_eq in E. subst a. now rewrite Z.eqb_refl, andb_true_r.
    + rewrite (Z.eqb_sym (User.id other) a), E. now rewrite !andb_false_r.
Qed.

(** What a load of [followers] answers to [is_followed_by]. *)
Lemma loaded_followers_answer (d : Database) (self other : User.t) :
  (List.length
     (filter (fun user => user_eq user (OfSession other))
        (map (fun f => followed_user f d)
             (unique_rows Follow.eqb (followers_users self d)))) =? 1)%nat
  = user_exists d (User.id other) &&
    existsb (Follow.eqb (Follow.mk (User.id self) (User.id other))) (follows d).
Proof.
  rewrite length_filter_map.
  set (f0 := Follow.mk (User.id self) (User.id other)).
  set (L := unique_rows Follow.eqb (followers_users self d)).
  assert (HL : forall g, In g L <->
                 In g (follows d) /\
                 Follow.user_being_followed_id g = User.id self).
  { intros g. unfold L. rewrite (unique_rows_In _ _ Follow_eqb_eq).
    unfold followers_users. now rewrite filter_In, Z.eqb_eq. }
  rewrite (filter_ext_in _
             (fun g => user_exists d (User.id other) && Follow.eqb f0 g)).
  - rewrite count_one_iff_stored
      by apply (unique_rows_NoDup _ _ Follow_eqb_eq).
    f_equal. apply eq_true_iff_eq. rewrite !existsb_exists.
    split; intros (g & Hg & E); exists g; (split; [|exact E]).
    + now apply HL.
    + apply HL. split; [exact Hg|]. apply Follow_eqb_eq in E. now subst g.
  - intros [a b] Hg. apply HL in Hg. destruct Hg as [_ Ha]. simpl in Ha.
    unfold followed_user, Follow.eqb, f0. simpl.
    rewrite user_eq_get_user. subst a. rewrite Z.eqb_refl. simpl.
    destruct (b =? User.id other) eqn:E.
    + apply Z.eqb_eq in E. subst b. now rewrite Z.eqb_refl, andb_true_r.
    + rewrite (Z.eqb_sym (User.id other) b), E. now rewrite !andb_false_r.
Qed.

(** ** Reading a relationship: loaded, or to be loaded *)

Lemma obind_ok {A B : Type} (m : OM A) (k : A -> OM B) (o o' : Orm) (a : A) :
  m o = Ok (a, o') -> obind m k o = k a o'.
Proof. unfold obind. intros ->. reflexivity. Qed.

Lemma in_session_ok {A : Type} (m : M A) (o : Orm) (a : A) (s' : Session) :
  m (session o) = Ok (a, s') ->
  in_session m o =
  Ok (a, mkOrm s' (following_loaded o) (followers_loaded o) (likes_loaded o)).
Proof. unfold in_session. intros ->. reflexivity. Qed.

Lemma is_following_loaded (o : Orm) (self : User.t) (other_user : UserObject)
  (l : list (option User.t)) :
  loaded_for (User.id self) (following_loaded o) = Some l ->
  is_following self other_user o =
  Ok ((List.length (filter (fun user => user_eq user other_user) l) =? 1)%nat,
      o).
Proof.
  intros H. unfold is_following, obind, following. rewrite H. reflexivity.
Qed.

Lemma is_followed_by_loaded (o : Orm) (self : User.t)
  (other_user : UserObject) (l : list (option User.t)) :
  loaded_for (User.id self) (followers_loaded o) = Some l ->
  is_followed_by self other_user o =
  Ok ((List.length (filter (fun user => user_eq user other_user) l) =? 1)%nat,
      o).
Proof.
  intros H. unfold is_followed_by, obind, followers. rewrite H. reflexivity.
Qed.

Lemma is_following_load (o : Orm) (s1 : Session) (self other : User.t) :
  loaded_for (User.id self) (following_loaded o) = None ->
  flush (session o) = Ok (tt, s1) ->
  is_following self (OfSession other) o =
  Ok (user_exists (db s1) (User.id other) &&
      existsb (Follow.eqb (Follow.mk (User.id other) (User.id self)))
              (follows (db s1)),
      mkOrm s1
        ((User.id self,
          map (fun f => following_user f (db s1))
              (unique_rows Follow.eqb (following_users self (db s1))))
         :: following_loaded o)
        (followers_loaded o) (likes_loaded o)).
Proof.
  intros Hl Hf. unfold is_following, obind, following, autoflush.
  rewrite Hl, Hf. unfold oret. now rewrite loaded_following_answer.
Qed.

Lemma is_followed_by_load (o : Orm) (s1 : Session) (self other : User.t) :
  loaded_for (User.id self) (followers_loaded o) = None ->
  flush (session o) = Ok (tt, s1) ->
  is_followed_by self (OfSession other) o =
  Ok (user_exists (db s1) (User.id other) &&
      existsb (Follow.eqb (Follow.mk (User.id self) (User.id other)))
              (follows (db s1)),
      mkOrm s1 (following_loaded o)
        ((User.id self,
          map (fun f => followed_user f (db s1))
              (unique_rows Follow.eqb (followers_users self (db s1))))
         :: followers_loaded o)
        (likes_loaded o)).
Proof.
  intros Hl Hf. unfold is_followed_by, obind, followers, autoflush.
  rewrite Hl, Hf. unfold oret. now rewrite loaded_followers_answer.
Qed.

Lemma loaded_for_head {A : Type} (id : Z) (a : A) (rest : list (Z * A)) :
  loaded_for id ((id, a) :: rest) = Some a.
Proof. simpl. now rewrite Z.eqb_refl. Qed.

Lemma existsb_added (f : Follow.t) (l : list Follow.t) :
  existsb (Follow.eqb f) (l ++ [f]) = true.
Proof.
  rewrite existsb_app. simpl.
  replace (Follow.eqb f f) with true by (symmetry; now apply Follow_eqb_eq).
  now rewrite orb_true_r.
Qed.

(** The states the sequence of C3 goes through, from a session with
    nothing pending in which A does not follow B yet. *)
Lemma follow_steps (s : Session) (A B : User.t) :
  new s = [] ->
  user_exists (db s) (User.id A) = true ->
  user_exists (db s) (User.id B) = true ->
  ~ In (Follow.mk (User.id B) (User.id A)) (follows (db s)) ->
  let f := Follow.mk (User.id B) (User.id A) in
  let staged := mkSession (db s) [AFollow f] in
  let stored := mkSession (set_follows (db s) (follows (db s) ++ [f])) [] in
  follow A B s = Ok (tt, staged) /\
  flush staged = Ok (tt, stored) /\
  flush stored = Ok (tt, stored) /\
  unfollow A B stored = Ok (tt, s) /\
  flush s = Ok (tt, s).
Proof.
  intros Hnew HA HB Habs f staged stored.
  assert (Hflush : flush staged = Ok (tt, stored)).
  { unfold staged, stored. rewrite flush_one_follow.
    now rewrite insert_follow_accepts. }
  split; [now apply follow_clean|]. split; [exact Hflush|].
  split; [apply flush_empty|]. split; [|now apply flush_clean].
  unfold stored.
  rewrite (unfollow_flushed _ _ A B (flush_empty _)). fold f. simpl.
  rewrite (filter_out_added f _ Habs).
  change (set_follows (set_follows (db s) _) (follows (db s)))
    with (set_follows (db s) (follows (db s))).
  rewrite set_follows_same, <- Hnew. now rewrite session_eta.
Qed.

(** ** Follow, check, unfollow, check *)

Lemma user_exists_set_follows (d : Database) (l : list Follow.t) (uid : Z) :
  user_exists (set_follows d l) uid = user_exists d uid.
Proof. reflexivity. Qed.

Lemma commit_and_expire_ok (o : Orm) (s1 : Session) :
  flush (session o) = Ok (tt, s1) ->
  commit_and_expire o = Ok (tt, mkOrm s1 [] [] []).
Proof. unfold commit_and_expire, commit. intros ->. reflexivity. Qed.




(** ** What the membership checks count *)

Lemma user_eq_another (user : option User.t) (u : User.t) :
  user_eq user (Another u) = false.
Proof. destruct user; reflexivity. Qed.

Lemma loaded_likes_all_there (d : Database) (self : User.t) :
  consistent d ->
  Forall (fun liked_msg : option Message.t => liked_msg <> None)
         (map (fun l => message_the_user_liked l d)
              (unique_rows Like.eqb (liked_messages self d))).
Proof.
  intros C. apply Forall_forall. intros m Hm. apply in_map_iff in Hm.
  destruct Hm as (l & <- & Hl).
  rewrite (unique_rows_In _ _ Like_eqb_eq) in Hl.
  unfold liked_messages in Hl. apply filter_In in Hl. destruct Hl as [Hl _].
  destruct (likes_fk _ C l Hl) as [_ Hex].
  destruct (get_message_exists _ _ Hex) as (m & Hm & _).
  unfold message_the_user_liked. rewrite Hm. discriminate.
Qed.

(** What a load of [likes] answers to [is_liked]. *)
Lemma loaded_likes_answer (d : Database) (self : User.t) (message_id : Z) :
  consistent d ->
  ((List.length
      (filter (fun m => liked_msg_has_id m message_id)
         (map (fun l => message_the_user_liked l d)
              (unique_rows Like.eqb (liked_messages self d)))) =? 1)%nat
   = true <-> In (Like.mk (User.id self) message_id) (likes d)).
Proof.
  intros C. rewrite length_filter_map.
  set (k0 := Like.mk (User.id self) message_id).
  set (L := unique_rows Like.eqb (liked_messages self d)).
  assert (HL : forall g, In g L <->
                 In g (likes d) /\ Like.user_id g = User.id self).
  { intros g. unfold L. rewrite (unique_rows_In _ _ Like_eqb_eq).
    unfold liked_messages. now rewrite filter_In, Z.eqb_eq. }
  rewrite (filter_ext_in _ (Like.eqb k0)).
  - rewrite (Like_count_stored k0 L (unique_rows_NoDup _ _ Like_eqb_eq _)).
    rewrite HL. simpl. tauto.
  - intros [a b] Hg. apply HL in Hg. destruct Hg as [Hg Ha]. simpl in Ha.
    destruct (likes_fk _ C _ Hg) as [_ Hm]. simpl in Hm.
    unfold message_the_user_liked, Like.eqb, k0. simpl.
    rewrite liked_msg_get_message, Hm. subst a. rewrite Z.eqb_refl. simpl.
    apply Z.eqb_sym.
Qed.


Lemma is_liked_loaded (o : Orm) (self : User.t) (message_id : Z)
  (l : list (option Message.t)) :
  loaded_for (User.id self) (likes_loaded o) = Some l ->
  Forall (fun liked_msg => liked_msg <> None) l ->
  is_liked self message_id o =
  Ok ((List.length (filter (fun m => liked_msg_has_id m message_id) l)
       =? 1)%nat, o).
Proof.
  intros H Hall. unfold is_liked, obind, likes_of. rewrite H.
  destruct (found_likes_count _ message_id Hall) as (found & -> & ->).
  reflexivity.
Qed.



(** ** Deleting a user through the session *)

(** C7: the code does not do what the claim says for a user who has liked a
    message. [db.session.delete(user)] follows the cascades the
    relationships declare; [liked_messages], unlike [messages],
    [following_users] and [followers_users], declares none, so the unit of
    work raises an assertion instead of removing the user's Like rows, and
    nothing is deleted. *)
Theorem session_delete_of_liking_user_raises
  (s s1 : Session) (user : User.t) (l : Like.t) :
  flush s = Ok (tt, s1) ->
  In l (likes (db s1)) -> Like.user_id l = User.id user ->
  session_delete user s = Raise AssertionError.
Proof.
  intros H Hl Hu. unfold session_delete, bind, autoflush, get_db.
  rewrite H.
  match goal with |- context [existsb ?p (likes (db s1))] =>
    assert (E : existsb p (likes (db s1)) = true) end.
  { apply existsb_exists. exists l. split; [exact Hl|].
    rewrite Hu, Z.eqb_refl. reflexivity. }
  now rewrite E.
Qed.

Lemma session_delete_of_liking_user_raises_witness :
  flush session1 = Ok (tt, session1) /\
  In (Like.mk 2 1) (likes (db session1)) /\
  session_delete bo session1 = Raise AssertionError.
Proof.
  assert (Hin : In (Like.mk 2 1) (likes (db session1))) by (simpl; auto).
  split; [reflexivity|]. split; [exact Hin|].
  exact (session_delete_of_liking_user_raises session1 session1 bo
           (Like.mk 2 1) eq_refl Hin eq_refl).
Defined.
